(** * dhsy: the team coordinator, the window task executor and the
      bounded task manager of [game/DailyTasks.py]

    A shallow embedding of the orchestration classes of
    [src/game/DailyTasks.py]:

    - [TeamTaskCoordinator]: three dictionaries keyed by team id;
    - [WindowTaskExecutor]: one window's task pipeline;
    - [DailyTasks.start_task]: one executor per selected window;
    - [GameAutomationManager]: submission under an [asyncio.Semaphore].

    Python dictionaries with string keys are [gmap string _], window
    handles ([hwnd], Python [int]) are [Z], exceptions are values of
    [PyExc] returned through [Res].  What the code reads from the outside
    (the clock, the automation functions, the connection, a stop request)
    is passed in as an argument. *)

From stdpp Require Import gmap strings list fin_maps pretty.

Open Scope Z_scope.

(** ** Python values the code passes around *)

(** The exceptions the modelled code can meet, all of them subclasses of
    [Exception], which [except Exception] catches.  [Exception msg]
    stands for whatever an automation function raises, with
    [str(e) = msg].  [asyncio.CancelledError], a [BaseException], is not
    one of them: see [FutureResult]. *)
Inductive PyExc : Type :=
  | KeyError (key : string)
  | TypeError (msg : string)
  | ValueError (msg : string)
  | TimeoutError
  | Exception (msg : string).

(** [str(e)]: a [KeyError] prints the [repr] of its key. *)
Definition str_exc (e : PyExc) : string :=
  match e with
  | KeyError k => "'" +:+ k +:+ "'"
  | TypeError m => m
  | ValueError m => m
  | TimeoutError => ""
  | Exception m => m
  end.

(** The outcome of a call: a value, or a raised exception. *)
Inductive Res (A : Type) : Type :=
  | Ok (a : A)
  | Raise (e : PyExc).
Arguments Ok {A} a.
Arguments Raise {A} e.

Definition is_ok {A} (r : Res A) : bool :=
  match r with Ok _ => true | Raise _ => false end.

(** [class TaskRole(Enum)] and its [.value]. *)
Inductive TaskRole : Type := LEADER | MEMBER | SOLO.

Definition TaskRole_value (r : TaskRole) : string :=
  match r with
  | LEADER => "leader"
  | MEMBER => "member"
  | SOLO => "solo"
  end.

Global Instance TaskRole_eq_dec : EqDecision TaskRole.
Proof. solve_decision. Defined.

(** ** The clock

    A clock reading is a number of microseconds.  [time.time()] is that
    reading in seconds, and [int(time.time())] truncates it toward zero. *)
Definition int_time (reading : Z) : Z := Z.quot reading 1000000.

(** ** TeamTaskCoordinator *)

(** The ['status'] field of a team: the strings ['forming'] and ['ready']. *)
Inductive TeamStatus : Type := forming | ready.

Global Instance TeamStatus_eq_dec : EqDecision TeamStatus.
Proof. solve_decision. Defined.

(** The dictionary stored in [team_tasks[team_id]]. *)
Record TeamInfo : Type := mkTeamInfo {
  task_name : string;
  leader : Z;
  members : list Z;
  status : TeamStatus;
  created_at : Z
}.

(** An [asyncio.Event]: its internal flag. *)
Record Event : Type := mkEvent { is_set : bool }.

Record TeamTaskCoordinator : Type := mkCoordinator {
  team_tasks : gmap string TeamInfo;
  team_members : gmap string (list Z);
  team_events : gmap string Event
}.

(** [__init__]: three empty dictionaries. *)
Definition coordinator_init : TeamTaskCoordinator :=
  {| team_tasks := ∅; team_members := ∅; team_events := ∅ |}.

(** [f"{task_name}_{leader_hwnd}_{int(time.time())}"] *)
Definition make_team_id (task : string) (leader_hwnd : Z) (time_time : Z) : string :=
  task +:+ "_" +:+ pretty leader_hwnd +:+ "_" +:+ pretty (int_time time_time).

(** [create_team]: [time_time] is the reading of [time.time()], [now] the
    one of [datetime.now()].  The three assignments overwrite whatever the
    dictionaries held under the id. *)
Definition create_team (time_time now : Z) (task : string) (leader_hwnd : Z)
    (member_hwnds : list Z) (c : TeamTaskCoordinator) : string * TeamTaskCoordinator :=
  let team_id := make_team_id task leader_hwnd time_time in
  (team_id,
   {| team_tasks :=
        <[team_id := {| task_name := task; leader := leader_hwnd;
                        members := member_hwnds; status := forming;
                        created_at := now |}]> (team_tasks c);
      team_members := <[team_id := leader_hwnd :: member_hwnds]> (team_members c);
      team_events := <[team_id := {| is_set := false |}]> (team_events c) |}).

(** [wait_for_team_ready].  The event is looked up once, when the call
    starts; a missing key raises [KeyError], which the [except
    asyncio.TimeoutError] clause does not catch.  [timeout] is in seconds.
    [set_after] tells when the event is set by another coroutine:
    [Some d], [d] microseconds after the call starts, or [None], not while
    the call waits.  [asyncio.wait_for] with [timeout <= 0] cancels a wait
    that has not started and raises [TimeoutError]. *)
Definition wait_for_team_ready (team_id : string) (timeout : Z)
    (set_after : option Z) (c : TeamTaskCoordinator) : Res bool :=
  match team_events c !! team_id with
  | None => Raise (KeyError team_id)
  | Some ev =>
      if timeout <=? 0 then Ok false
      else if is_set ev then Ok true
      else match set_after with
           | Some d => if d <? timeout * 1000000 then Ok true else Ok false
           | None => Ok false
           end
  end.

Definition mark_ready (info : TeamInfo) : TeamInfo :=
  {| task_name := task_name info; leader := leader info;
     members := members info; status := ready;
     created_at := created_at info |}.

(** [set_team_ready]: the status is written before the event is looked
    up, so the write stays when the lookup raises. *)
Definition set_team_ready (team_id : string) (c : TeamTaskCoordinator)
    : TeamTaskCoordinator * Res unit :=
  match team_tasks c !! team_id with
  | None => (c, Ok tt)
  | Some info =>
      let tasks' := <[team_id := mark_ready info]> (team_tasks c) in
      match team_events c !! team_id with
      | None =>
          ({| team_tasks := tasks'; team_members := team_members c;
              team_events := team_events c |}, Raise (KeyError team_id))
      | Some _ =>
          ({| team_tasks := tasks'; team_members := team_members c;
              team_events := <[team_id := {| is_set := true |}]> (team_events c) |},
           Ok tt)
      end
  end.

(** [disband_team]: [del self.team_members[team_id]] raises [KeyError]
    when the key is missing, after the entry of [team_tasks] is gone. *)
Definition disband_team (team_id : string) (c : TeamTaskCoordinator)
    : TeamTaskCoordinator * Res unit :=
  match team_tasks c !! team_id with
  | None => (c, Ok tt)
  | Some _ =>
      let tasks' := delete team_id (team_tasks c) in
      match team_members c !! team_id with
      | None =>
          ({| team_tasks := tasks'; team_members := team_members c;
              team_events := team_events c |}, Raise (KeyError team_id))
      | Some _ =>
          ({| team_tasks := tasks';
              team_members := delete team_id (team_members c);
              team_events := delete team_id (team_events c) |}, Ok tt)
      end
  end.

(** [get_team_role] *)
Definition get_team_role (team_id : string) (hwnd : Z) (c : TeamTaskCoordinator) : TaskRole :=
  match team_tasks c !! team_id with
  | None => SOLO
  | Some team_info =>
      if bool_decide (hwnd = leader team_info) then LEADER
      else if bool_decide (hwnd ∈ members team_info) then MEMBER
      else SOLO
  end.

(** [get_team_members]: [self.team_members.get(team_id, [])] *)
Definition get_team_members (team_id : string) (c : TeamTaskCoordinator) : list Z :=
  default [] (team_members c !! team_id).

(** A team id is absent from the registry: none of the three dictionaries
    has it as a key. *)
Definition absent (team_id : string) (c : TeamTaskCoordinator) : Prop :=
  team_tasks c !! team_id = None ∧
  team_members c !! team_id = None ∧
  team_events c !! team_id = None.

(** *** Sequences of coordinator calls *)

Inductive CoordOp : Type :=
  | OpCreate (time_time now : Z) (task : string) (leader_hwnd : Z) (member_hwnds : list Z)
  | OpSetReady (team_id : string)
  | OpDisband (team_id : string).

Definition run_op (op : CoordOp) (c : TeamTaskCoordinator) : TeamTaskCoordinator * Res unit :=
  match op with
  | OpCreate t0 now task l ms => ((create_team t0 now task l ms c).2, Ok ())
  | OpSetReady id => set_team_ready id c
  | OpDisband id => disband_team id c
  end.

(** The calls are made one after the other; a raised exception ends the
    sequence with the state it left. *)
Fixpoint run_ops (ops : list CoordOp) (c : TeamTaskCoordinator)
    : TeamTaskCoordinator * Res unit :=
  match ops with
  | [] => (c, Ok ())
  | op :: rest =>
      match run_op op c with
      | (c', Ok _) => run_ops rest c'
      | (c', Raise e) => (c', Raise e)
      end
  end.

(** The three dictionaries have the same keys. *)
Definition same_keys (c : TeamTaskCoordinator) : Prop :=
  dom (team_tasks c) = dom (team_members c) ∧
  dom (team_tasks c) = dom (team_events c).

(** ** WindowTaskExecutor *)

(** Values stored in the dictionary an automation function returns. *)
Inductive PyVal : Type :=
  | VNone
  | VStr (s : string)
  | VInt (n : Z).

(** What an automation function returns: a dictionary, or [None] (a
    function such as [shi_men_ren_wu] that ends without [return]). *)
Inductive PyObj : Type :=
  | ObjDict (d : gmap string PyVal)
  | ObjNone.

(** [result[key] = v] *)
Definition setitem (result : PyObj) (key : string) (v : PyVal) : Res PyObj :=
  match result with
  | ObjDict d => Ok (ObjDict (<[key := v]> d))
  | ObjNone => Raise (TypeError "'NoneType' object does not support item assignment")
  end.

(** The two ways the executor calls an automation function:
    [task_func(self.hwnd)] and [task_func(role, team_id)]. *)
Inductive TaskCall : Type :=
  | CallSolo (hwnd : Z)
  | CallTeam (role : TaskRole) (team_id : string).

(** An automation function, by what a call to it yields. *)
Definition TaskFunc : Type := TaskCall → Res PyObj.

(** The [task_config] dictionary: each key may be missing. *)
Record TaskConfig : Type := mkTaskConfig {
  is_team_task : option bool;
  team_size : option Z
}.

(** An entry of the task sequence: [(task_name, task_func, task_config)]. *)
Definition Task : Type := string * TaskFunc * TaskConfig.

(** The [window_info] dictionary. *)
Record WindowInfo : Type := mkWindowInfo {
  hwnd : Z;
  title : string;
  available_windows : option (list Z)
}.

(** [datetime.strftime('%H:%M:%S')] of a clock reading. *)
Definition pad2 (n : Z) : string :=
  if n <? 10 then "0" +:+ pretty n else pretty n.

Definition strftime_HMS (reading : Z) : string :=
  let s := (reading `div` 1000000) `mod` 86400 in
  pad2 (s `div` 3600) +:+ ":" +:+ pad2 ((s `div` 60) `mod` 60) +:+ ":" +:+ pad2 (s `mod` 60).

(** An entry of [results]: the dictionary written after a task returned,
    and the one written after it raised.  [duration] is
    [(end_time - start_time)] in microseconds ([total_seconds()] is this
    number over 10^6). *)
Inductive TaskResult : Type :=
  | task_success (duration : Z) (role : PyVal) (team_id : PyVal) (start_time end_time : string)
  | task_failed (error : string) (duration : Z) (start_time end_time : string).

(** What [execute_all_tasks] returns. *)
Inductive ExecResult : Type :=
  | exec_running (hwnd : Z)
  | exec_success (hwnd : Z) (task_results : gmap string TaskResult) (completed_at : string)
  | exec_failed (hwnd : Z) (error : string) (completed_at : string).

Definition result_hwnd (r : ExecResult) : Z :=
  match r with
  | exec_running h => h
  | exec_success h _ _ => h
  | exec_failed h _ _ => h
  end.

(** What one run of an executor reads from the outside. *)
Record ExecEnv : Type := mkExecEnv {
  (** the successive readings of the clock, by [time.time()] and
      [datetime.now()] alike *)
  clock : nat → Z;
  (** [connect_to_window_async] raises this, or returns *)
  connect_raises : option PyExc;
  (** [stop_tasks()] has cleared [is_running] by the time the loop checks
      it for the task of this index (counted from 0) *)
  stop_before : option nat;
  (** what [_get_task_sequence()] returns *)
  task_sequence : list Task
}.

Definition stopped (env : ExecEnv) (i : nat) : bool :=
  match stop_before env with
  | Some k => bool_decide (k ≤ i)%nat
  | None => false
  end.

(** The fields of the executor the pipeline reads and writes. *)
Record Executor : Type := mkExecutor {
  window_info : WindowInfo;
  ex_is_running : bool;
  current_team_id : option string
}.

(** [__init__] *)
Definition executor_init (w : WindowInfo) : Executor :=
  {| window_info := w; ex_is_running := false; current_team_id := None |}.

(** What the task loop carries along: the shared coordinator, the number
    of clock readings taken so far, [self.current_team_id] and [results]. *)
Record LoopState : Type := mkLoopState {
  coord : TeamTaskCoordinator;
  tick : nat;
  cur_team : option string;
  results : gmap string TaskResult
}.

(** [l[:n]] *)
Definition py_slice_to {A} (l : list A) (n : Z) : list A :=
  if 0 <=? n then take (Z.to_nat n) l
  else take (Z.to_nat (Z.of_nat (length l) + n)) l.

(** [_get_teammates_for_task] *)
Definition _get_teammates_for_task (w : WindowInfo) (team_size : Z) : list Z :=
  let all_windows := default [] (available_windows w) in
  let teammates := filter (λ h, h ≠ hwnd w) all_windows in
  match teammates with
  | [] => []
  | _ => py_slice_to teammates (team_size - 1)
  end.

(** [_execute_solo_task] *)
Definition _execute_solo_task (w : WindowInfo) (task_func : TaskFunc) : Res PyObj :=
  match task_func (CallSolo (hwnd w)) with
  | Raise e => Raise e
  | Ok result => setitem result "role" (VStr "solo")
  end.

(** [_execute_team_task]: [create_team] takes two readings of the clock. *)
Definition _execute_team_task (env : ExecEnv) (w : WindowInfo) (task_name : string)
    (task_func : TaskFunc) (task_config : TaskConfig) (st : LoopState)
    : LoopState * Res PyObj :=
  let teammate_hwnds := _get_teammates_for_task w (default 5 (team_size task_config)) in
  match teammate_hwnds with
  | [] => (st, _execute_solo_task w task_func)
  | _ =>
      let '(team_id, c') :=
        create_team (clock env (tick st)) (clock env (S (tick st)))
                    task_name (hwnd w) teammate_hwnds (coord st) in
      let st' := {| coord := c'; tick := S (S (tick st));
                    cur_team := Some team_id; results := results st |} in
      let role := get_team_role team_id (hwnd w) c' in
      let called :=
        match role with
        | LEADER => task_func (CallTeam role team_id)
        | MEMBER => task_func (CallTeam role team_id)
        | SOLO => _execute_solo_task w task_func
        end in
      (st',
       match called with
       | Raise e => Raise e
       | Ok result =>
           match setitem result "role" (VStr (TaskRole_value role)) with
           | Raise e => Raise e
           | Ok result' => setitem result' "team_id" (VStr team_id)
           end
       end)
  end.

(** [_execute_single_task] *)
Definition _execute_single_task (env : ExecEnv) (w : WindowInfo) (task_name : string)
    (task_func : TaskFunc) (task_config : TaskConfig) (st : LoopState)
    : LoopState * Res PyObj :=
  if default false (is_team_task task_config)
  then _execute_team_task env w task_name task_func task_config st
  else (st, _execute_solo_task w task_func).

(** [result.get(key, dflt)] on what [_execute_single_task] returned. *)
Definition result_get (result : PyObj) (key : string) (dflt : PyVal) : PyVal :=
  match result with
  | ObjDict d => default dflt (d !! key)
  | ObjNone => dflt
  end.

(** One turn of the [for] loop of [execute_all_tasks], once the stop
    check has passed: the two readings of [datetime.now()] around the
    task, and the entry written under [task_name]. *)
Definition run_one_task (env : ExecEnv) (w : WindowInfo) (t : Task) (st : LoopState)
    : LoopState :=
  let '(task_name, task_func, task_config) := t in
  let start_time := clock env (tick st) in
  let st0 := {| coord := coord st; tick := S (tick st);
                cur_team := cur_team st; results := results st |} in
  let '(st1, r) := _execute_single_task env w task_name task_func task_config st0 in
  let end_time := clock env (tick st1) in
  let duration := end_time - start_time in
  let entry :=
    match r with
    | Ok result =>
        task_success duration (result_get result "role" (VStr "solo"))
                     (result_get result "team_id" VNone)
                     (strftime_HMS start_time) (strftime_HMS end_time)
    | Raise e =>
        task_failed (str_exc e) duration
                    (strftime_HMS start_time) (strftime_HMS end_time)
    end in
  {| coord := coord st1; tick := S (tick st1); cur_team := cur_team st1;
     results := <[task_name := entry]> (results st1) |}.

(** The [for] loop, from the task of index [i] on: [break] when the stop
    request has come, else run the task and go on, whatever its outcome. *)
Fixpoint run_tasks (env : ExecEnv) (w : WindowInfo) (i : nat) (tasks : list Task)
    (st : LoopState) : LoopState :=
  match tasks with
  | [] => st
  | t :: rest =>
      if stopped env i then st
      else run_tasks env w (S i) rest (run_one_task env w t st)
  end.

(** Python's truth value of [self.current_team_id]. *)
Definition team_id_truthy (o : option string) : bool :=
  match o with
  | Some s => negb (bool_decide (s = ""))
  | None => false
  end.

(** [execute_all_tasks].  The [finally] clause runs on both exits of the
    [try]; an exception raised inside it replaces the value being
    returned.  The early return on [is_running] is outside the [try]. *)
Definition execute_all_tasks (env : ExecEnv) (ex : Executor) (c : TeamTaskCoordinator)
    : Executor * TeamTaskCoordinator * Res ExecResult :=
  let w := window_info ex in
  if ex_is_running ex then (ex, c, Ok (exec_running (hwnd w)))
  else
    let st0 := {| coord := c; tick := 0%nat;
                  cur_team := current_team_id ex; results := ∅ |} in
    let '(st, ret) :=
      match connect_raises env with
      | Some e =>
          (st0, exec_failed (hwnd w) (str_exc e) (strftime_HMS (clock env 0%nat)))
      | None =>
          let st := run_tasks env w 0 (task_sequence env) st0 in
          (st, exec_success (hwnd w) (results st) (strftime_HMS (clock env (tick st))))
      end in
    let ex' := {| window_info := w; ex_is_running := false;
                  current_team_id := cur_team st |} in
    if team_id_truthy (cur_team st) then
      match disband_team (default "" (cur_team st)) (coord st) with
      | (c', Ok _) => (ex', c', Ok ret)
      | (c', Raise e) => (ex', c', Raise e)
      end
    else (ex', coord st, Ok ret).

(** [_get_task_sequence]: the one entry of [solo_tasks] that is not
    commented out; [team_tasks] and [weekly_tasks] are empty. *)
Definition _get_task_sequence (bang_pai_ren_wu : TaskFunc) : list Task :=
  [("帮派任务", bang_pai_ren_wu, {| is_team_task := Some false; team_size := None |})].

(** ** DailyTasks *)

(** What [start_task] meets for the window of a given index: whether
    [WindowTaskExecutor(...)] raises, and what the executor's run reads. *)
Record WindowEnv : Type := mkWindowEnv {
  ctor_raises : option PyExc;
  run_env : ExecEnv
}.

(** The fields of [DailyTasks] that [start_task] reads and writes.
    [window_executors] serves [stop_tasks] only, whose effect on a run is
    the [stop_before] of its [ExecEnv]. *)
Record DailyTasks : Type := mkDailyTasks {
  team_coordinator : TeamTaskCoordinator;
  is_running : bool
}.

Definition DailyTasks_init : DailyTasks :=
  {| team_coordinator := coordinator_init; is_running := false |}.

(** [window_info['available_windows'] = [w['hwnd'] for w in selected_windows]] *)
Definition set_available (all : list Z) (w : WindowInfo) : WindowInfo :=
  {| hwnd := hwnd w; title := title w; available_windows := Some all |}.

(** The [for] loop of [start_task]: one executor and one task per window,
    in order; a constructor that raises leaves the loop. *)
Fixpoint create_executors (envs : nat → WindowEnv) (all : list Z) (i : nat)
    (selected_windows : list WindowInfo) : Res (list (ExecEnv * Executor)) :=
  match selected_windows with
  | [] => Ok []
  | w :: rest =>
      match ctor_raises (envs i) with
      | Some e => Raise e
      | None =>
          match create_executors envs all (S i) rest with
          | Raise e => Raise e
          | Ok tasks => Ok ((run_env (envs i), executor_init (set_available all w)) :: tasks)
          end
      end
  end.

(** [asyncio.gather] of [tasks] with [return_exceptions=True]: one outcome
    per task, in the order of [tasks], an exception being an outcome like
    another.  The runs are taken one after the other on the shared
    coordinator: the schedule in which each task finishes before the next
    one starts. *)
Fixpoint gather (tasks : list (ExecEnv * Executor)) (c : TeamTaskCoordinator)
    : TeamTaskCoordinator * list (Res ExecResult) :=
  match tasks with
  | [] => (c, [])
  | (env, ex) :: rest =>
      let '(_, c', r) := execute_all_tasks env ex c in
      let '(c'', rs) := gather rest c' in
      (c'', r :: rs)
  end.

(** [start_task]: the new state, the message boxes shown, and the value
    returned to the caller.  Every exit of the source returns [None]:
    the two bare [return]s and the end of the body; the list that
    [gather] yields is not bound to a name. *)
Definition start_task (envs : nat → WindowEnv) (selected_windows : list WindowInfo)
    (d : DailyTasks) : DailyTasks * list string * option (list (Res ExecResult)) :=
  match selected_windows with
  | [] => (d, ["请先选择要启动的窗口"], None)
  | _ =>
      if is_running d then (d, ["任务正在执行中，请等待完成"], None)
      else
        match create_executors envs (hwnd <$> selected_windows) 0 selected_windows with
        | Raise e =>
            ({| team_coordinator := team_coordinator d; is_running := false |},
             ["任务执行失败: " +:+ str_exc e], None)
        | Ok tasks =>
            let '(c', _) := gather tasks (team_coordinator d) in
            ({| team_coordinator := c'; is_running := false |}, [], None)
        end
  end.

(** ** GameAutomationManager *)

(** Where a task created by [submit_task] stands in
    [_run_task_with_limit]: before [async with self.semaphore] has the
    permit, inside it (the body [task_func] runs), or over. *)
Inductive Phase : Type := Waiting | Running | Finished.

Global Instance Phase_eq_dec : EqDecision Phase.
Proof. solve_decision. Defined.

(** An entry of [task_results]: what the task returned, or the
    dictionary with ['status': 'failed'] and [str(e)]. *)
Inductive TaskOutcome : Type :=
  | outcome_result (r : PyObj)
  | outcome_failed (error : string).

(** What [future.result()] does in the done callback of a task: it
    returns or raises what [_run_task_with_limit] returned or raised, or
    raises [CancelledError] when the task was cancelled. *)
Inductive FutureResult : Type :=
  | future_done (r : Res PyObj)
  | future_cancelled.

(** [semaphore] is the counter of the [asyncio.Semaphore]; [tasks] are
    all the tasks created so far with their ids, in order of creation
    ([active_tasks] loses a task when a later one takes its id). *)
Record GameAutomationManager : Type := mkManager {
  max_concurrent : Z;
  semaphore : Z;
  tasks : list (string * Phase);
  active_tasks : gmap string nat;
  task_results : gmap string TaskOutcome;
  task_counter : Z
}.

(** [__init__]: [asyncio.Semaphore(value)] raises on a negative value. *)
Definition manager_init (max_concurrent : Z) : Res GameAutomationManager :=
  if max_concurrent <? 0
  then Raise (ValueError "Semaphore initial value must be >= 0")
  else Ok {| max_concurrent := max_concurrent; semaphore := max_concurrent;
             tasks := []; active_tasks := ∅; task_results := ∅;
             task_counter := 0 |}.

(** What happens to a manager: a call of [submit_task]; the task of a
    given index gets the permit; its body returns or raises; the task is
    cancelled ([shutdown]). *)
Inductive ManagerEvent : Type :=
  | EvSubmit (task_name : option string)
  | EvAcquire (i : nat)
  | EvFinish (i : nat) (r : Res PyObj)
  | EvCancel (i : nat).

(** [task_name or f"task_{self.task_counter}"] *)
Definition submit_id (task_name : option string) (counter : Z) : string :=
  match task_name with
  | Some s => if bool_decide (s = "") then "task_" +:+ pretty counter else s
  | None => "task_" +:+ pretty counter
  end.

(** [submit_task] *)
Definition submit_task (task_name : option string) (m : GameAutomationManager)
    : string * GameAutomationManager :=
  let counter := task_counter m + 1 in
  let task_id := submit_id task_name counter in
  (task_id,
   {| max_concurrent := max_concurrent m; semaphore := semaphore m;
      tasks := tasks m ++ [(task_id, Waiting)];
      active_tasks := <[task_id := length (tasks m)]> (active_tasks m);
      task_results := task_results m; task_counter := counter |}).

(** [_task_done_callback]: [future.result()] of a cancelled task raises
    [CancelledError], which [except Exception] lets through, so neither
    dictionary is touched. *)
Definition _task_done_callback (task_id : string) (future : FutureResult)
    (m : GameAutomationManager) : GameAutomationManager :=
  match future with
  | future_cancelled => m
  | future_done r =>
      {| max_concurrent := max_concurrent m; semaphore := semaphore m;
         tasks := tasks m;
         active_tasks := delete task_id (active_tasks m);
         task_results :=
           <[task_id := match r with
                        | Ok v => outcome_result v
                        | Raise e => outcome_failed (str_exc e)
                        end]> (task_results m);
         task_counter := task_counter m |}
  end.

Definition set_phase (i : nat) (task_id : string) (p : Phase) (sem : Z)
    (m : GameAutomationManager) : GameAutomationManager :=
  {| max_concurrent := max_concurrent m; semaphore := sem;
     tasks := <[i := (task_id, p)]> (tasks m);
     active_tasks := active_tasks m; task_results := task_results m;
     task_counter := task_counter m |}.

(** One event; [None] when it cannot happen in this state: a task enters
    [async with self.semaphore] only while the counter is positive, and
    leaves it, giving the permit back, only after it entered. *)
Definition manager_step (ev : ManagerEvent) (m : GameAutomationManager)
    : option GameAutomationManager :=
  match ev with
  | EvSubmit task_name => Some (submit_task task_name m).2
  | EvAcquire i =>
      match tasks m !! i with
      | Some (task_id, Waiting) =>
          if 0 <? semaphore m
          then Some (set_phase i task_id Running (semaphore m - 1) m)
          else None
      | _ => None
      end
  | EvFinish i r =>
      match tasks m !! i with
      | Some (task_id, Running) =>
          Some (_task_done_callback task_id (future_done r)
                  (set_phase i task_id Finished (semaphore m + 1) m))
      | _ => None
      end
  | EvCancel i =>
      match tasks m !! i with
      | Some (task_id, Waiting) =>
          Some (_task_done_callback task_id future_cancelled
                  (set_phase i task_id Finished (semaphore m) m))
      | Some (task_id, Running) =>
          Some (_task_done_callback task_id future_cancelled
                  (set_phase i task_id Finished (semaphore m + 1) m))
      | _ => None
      end
  end.

Fixpoint manager_run (evs : list ManagerEvent) (m : GameAutomationManager)
    : option GameAutomationManager :=
  match evs with
  | [] => Some m
  | ev :: rest =>
      match manager_step ev m with
      | Some m' => manager_run rest m'
      | None => None
      end
  end.

(** The number of tasks whose body is executing. *)
Definition running_count (m : GameAutomationManager) : nat :=
  length (filter (λ t, t.2 = Running) (tasks m)).

(** ** The shipped pipeline *)

(** [needle in hay] on strings. *)
Fixpoint str_contains (needle hay : string) : bool :=
  if String.prefix needle hay then true
  else match hay with
       | EmptyString => false
       | String _ rest => str_contains needle rest
       end.

(** [WindowTaskExecutor.__init__]: [self.is_adb]. *)
Definition is_adb (w : WindowInfo) : bool :=
  str_contains "雷电模拟器" (title w).

(** [bang_pai_ren_wu], a method with the one parameter [hwnd].
    [touch_async] is what [self.adb_helper.touch_async] does, [time_time]
    the reading of [time.time()], stored under ['stats'] (a float in the
    source, the reading in microseconds here).  The coroutine function
    [_bangpai] is defined only under [if self.is_adb:], and the call
    [asyncio.run(_bangpai())] comes after the [if]. *)
Definition bang_pai_ren_wu (w : WindowInfo) (touch_async : Res bool) (time_time : Z)
    : TaskFunc :=
  λ call,
    match call with
    | CallTeam _ _ =>
        Raise (TypeError
          "WindowTaskExecutor.bang_pai_ren_wu() takes 2 positional arguments but 3 were given")
    | CallSolo _ =>
        if is_adb w then
          match touch_async with
          | Raise e => Raise e
          | Ok _ => Ok (ObjDict {["stats" := VInt time_time]})
          end
        else
          Raise (Exception
            "cannot access local variable '_bangpai' where it is not associated with a value")
    end.

(** ** FunView.get_selected_windows

    The window dictionaries come from the simulator list; the list
    control tells how many rows there are and which are checked.  Both
    attributes tested by [hasattr] are taken to exist. *)

(** The [for key in [...]] loop, left at the first key found. *)
Fixpoint first_key (keys : list string) (window_info : gmap string PyVal)
    : gmap string PyVal :=
  match keys with
  | [] => window_info
  | key :: rest =>
      match window_info !! key with
      | Some v => <["hwnd" := v]> window_info
      | None => first_key rest window_info
      end
  end.

(** The [if 'handle' in window_info: ... elif 'hwnd' not in window_info:]
    statement. *)
Definition ensure_hwnd (window_info : gmap string PyVal) : gmap string PyVal :=
  match window_info !! "handle" with
  | Some v => <["hwnd" := v]> window_info
  | None =>
      match window_info !! "hwnd" with
      | Some _ => window_info
      | None => first_key ["handle"; "hwnd"; "window_handle"; "window"] window_info
      end
  end.


(** ** Notions used in the statements *)

(** The status recorded for a team id, if the registry holds it. *)
Definition status_of (team_id : string) (c : TeamTaskCoordinator) : option TeamStatus :=
  status <$> team_tasks c !! team_id.

(** The call is a [create_team] that computes this id. *)
Definition creates (op : CoordOp) (team_id : string) : Prop :=
  match op with
  | OpCreate t _ task l _ => make_team_id task l t = team_id
  | _ => False
  end.

(** The state in which [execute_all_tasks] enters the loop. *)
Definition loop_init (c : TeamTaskCoordinator) (team : option string) : LoopState :=
  {| coord := c; tick := 0%nat; cur_team := team; results := ∅ |}.

(** What a task in this phase adds to the number of running tasks. *)
Definition runs (p : Phase) : Z := if decide (p = Running) then 1 else 0.

(** The semaphore counter and the running tasks add up to the limit. *)
Definition manager_inv (K : Z) (m : GameAutomationManager) : Prop :=
  max_concurrent m = K ∧
  0 ≤ semaphore m ∧
  semaphore m + Z.of_nat (running_count m) = K.

(** The team id a coordinator call acts on. *)
Definition op_target (op : CoordOp) : string :=
  match op with
  | OpCreate t _ task l _ => make_team_id task l t
  | OpSetReady team_id => team_id
  | OpDisband team_id => team_id
  end.

(** The environment of a run in which no stop request comes. *)
Definition never_stopped (env : ExecEnv) : ExecEnv :=
  {| clock := clock env; connect_raises := connect_raises env;
     stop_before := None; task_sequence := task_sequence env |}.

(** The number of [submit_task] calls among the events. *)
Fixpoint count_submits (evs : list ManagerEvent) : Z :=
  match evs with
  | [] => 0
  | EvSubmit _ :: rest => 1 + count_submits rest
  | _ :: rest => count_submits rest
  end.

(** One of the keys [get_selected_windows] looks for is present. *)
Definition has_handle_key (window_info : gmap string PyVal) : Prop :=
  is_Some (window_info !! "handle") ∨ is_Some (window_info !! "hwnd") ∨
  is_Some (window_info !! "window_handle") ∨ is_Some (window_info !! "window").

(** ** Concrete inputs

    A clock that advances by one second at each reading, two automation
    functions, two windows, and a manager with limit 2. *)
Definition demo_clock (k : nat) : Z := Z.of_nat k * 1000000.

Definition demo_env (tasks : list Task) : ExecEnv :=
  {| clock := demo_clock; connect_raises := None; stop_before := None;
     task_sequence := tasks |}.

Definition boom : TaskFunc := λ _, Raise (Exception "boom").

Definition returns_dict : TaskFunc := λ _, Ok (ObjDict ∅).

Definition solo_config : TaskConfig :=
  {| is_team_task := Some false; team_size := None |}.

Definition team_config : TaskConfig :=
  {| is_team_task := Some true; team_size := Some 5 |}.

Definition demo_window : WindowInfo :=
  {| hwnd := 1; title := "w1"; available_windows := Some [1; 2] |}.

Definition demo_window2 : WindowInfo :=
  {| hwnd := 2; title := "w2"; available_windows := None |}.

(** Every constructor succeeds, and every window runs one task, which
    raises. *)
Definition demo_envs : nat → WindowEnv :=
  λ _, {| ctor_raises := None; run_env := demo_env [("a", boom, solo_config)] |}.

(** Three submitted tasks, two of which entered the semaphore. *)
Definition demo_manager : GameAutomationManager :=
  {| max_concurrent := 2; semaphore := 2; tasks := []; active_tasks := ∅;
     task_results := ∅; task_counter := 0 |}.

Definition demo_events : list ManagerEvent :=
  [EvSubmit None; EvSubmit None; EvSubmit (Some "named"); EvAcquire 0; EvAcquire 2].

Definition demo_full : GameAutomationManager :=
  default demo_manager (manager_run demo_events demo_manager).

(** * Properties of the coordinator *)

Section coordinator.
Implicit Types (c : TeamTaskCoordinator) (team_id task : string) (h : Z).

Lemma same_keys_init : same_keys coordinator_init.
Proof. split; reflexivity. Qed.

Lemma create_team_same_keys t now task l ms c :
  same_keys c → same_keys (create_team t now task l ms c).2.
Proof.
  intros [Hm He]. split; simpl; rewrite !dom_insert_L; [by rewrite Hm|by rewrite He].
Qed.

Lemma set_team_ready_same_keys team_id c :
  same_keys c →
  same_keys (set_team_ready team_id c).1 ∧ (set_team_ready team_id c).2 = Ok ().
Proof.
  intros [Hm He]. unfold set_team_ready.
  destruct (team_tasks c !! team_id) as [info|] eqn:Ht; [|by repeat split].
  assert (Hin : team_id ∈ dom (team_tasks c)) by (apply elem_of_dom; eauto).
  destruct (team_events c !! team_id) as [ev|] eqn:Hev.
  - split; [|done]. split; simpl; rewrite !dom_insert_L.
    + rewrite <- Hm. apply (subseteq_union_1_L (C:=gset string)).
      by apply singleton_subseteq_l.
    + by rewrite <- He.
  - exfalso. rewrite He in Hin. apply elem_of_dom in Hin as [? ?]. congruence.
Qed.

Lemma disband_team_same_keys team_id c :
  same_keys c →
  same_keys (disband_team team_id c).1 ∧ (disband_team team_id c).2 = Ok ().
Proof.
  intros [Hm He]. unfold disband_team.
  destruct (team_tasks c !! team_id) as [info|] eqn:Ht; [|by repeat split].
  assert (Hin : team_id ∈ dom (team_tasks c)) by (apply elem_of_dom; eauto).
  destruct (team_members c !! team_id) as [ms|] eqn:Hms.
  - split; [|done]. split; simpl; rewrite !dom_delete_L; congruence.
  - exfalso. rewrite Hm in Hin. apply elem_of_dom in Hin as [? ?]. congruence.
Qed.

Lemma run_op_same_keys op c :
  same_keys c → same_keys (run_op op c).1 ∧ (run_op op c).2 = Ok ().
Proof.
  destruct op; simpl; intros Hk.
  - split; [|done]. by apply create_team_same_keys.
  - by apply set_team_ready_same_keys.
  - by apply disband_team_same_keys.
Qed.

(** From a registry whose dictionaries share their keys, no sequence
    of calls raises, and the keys stay shared. *)
Lemma run_ops_same_keys ops c :
  same_keys c → same_keys (run_ops ops c).1 ∧ (run_ops ops c).2 = Ok ().
Proof.
  revert c. induction ops as [|op ops IH]; intros c Hk; simpl; [done|].
  destruct (run_op_same_keys op c Hk) as [Hk' Hok].
  destruct (run_op op c) as [c' r]; simpl in *. subst r. by apply IH.
Qed.

Lemma disband_team_absent team_id c :
  same_keys c → absent team_id (disband_team team_id c).1.
Proof.
  intros [Hm He]. unfold disband_team, absent.
  destruct (team_tasks c !! team_id) as [info|] eqn:Ht.
  - destruct (team_members c !! team_id) as [ms|] eqn:Hms; simpl.
    + by rewrite !lookup_delete_eq.
    + exfalso. apply (not_elem_of_dom (team_members c)) in Hms.
      rewrite <- Hm in Hms. apply Hms, elem_of_dom; eauto.
  - simpl. split; [done|].
    apply not_elem_of_dom in Ht.
    split; apply not_elem_of_dom; congruence.
Qed.

Lemma disband_team_unknown team_id c :
  team_tasks c !! team_id = None → disband_team team_id c = (c, Ok ()).
Proof. intros Ht. unfold disband_team. by rewrite Ht. Qed.

Lemma disband_team_other team_id other c :
  other ≠ team_id →
  team_tasks (disband_team team_id c).1 !! other = team_tasks c !! other.
Proof.
  intros Hne. unfold disband_team.
  destruct (team_tasks c !! team_id); [|done].
  destruct (team_members c !! team_id); simpl; by rewrite lookup_delete_ne.
Qed.
End coordinator.

(** C8.  On every registry the coordinator's calls can build,
    [disband_team] returns without raising and leaves the id out of the
    three dictionaries at once; a second call returns without raising and
    changes nothing; on an id the registry does not hold, the call changes
    nothing. *)
Theorem disband_team_idempotent (ops : list CoordOp) (team_id : string) :
  let c := (run_ops ops coordinator_init).1 in
  let c1 := (disband_team team_id c).1 in
  (disband_team team_id c).2 = Ok () ∧
  absent team_id c1 ∧
  disband_team team_id c1 = (c1, Ok ()) ∧
  (team_tasks c !! team_id = None → disband_team team_id c = (c, Ok ())).
Proof.
  intros c c1.
  assert (Hk : same_keys c) by apply run_ops_same_keys, same_keys_init.
  repeat split.
  - by apply disband_team_same_keys.
  - by apply disband_team_absent.
  - by apply disband_team_absent.
  - by apply disband_team_absent.
  - apply disband_team_unknown. by apply disband_team_absent.
  - apply disband_team_unknown.
Qed.

Lemma disband_team_idempotent_witness :
  let ops := [OpCreate 5000000 5000000 "t" 1 [2; 3]; OpDisband "t_1_5"] in
  team_tasks (run_ops ops coordinator_init).1 !! "nosuch" = None ∧
  disband_team "nosuch" (run_ops ops coordinator_init).1
    = ((run_ops ops coordinator_init).1, Ok ()).
Proof.
  intros ops. split; [reflexivity|].
  apply (proj2 (proj2 (proj2 (disband_team_idempotent ops "nosuch")))).
  reflexivity.
Defined.

(** C9.  For a registered id, the role of a handle is [LEADER] when it is
    the recorded leader, else [MEMBER] when it is in the recorded member
    list, else [SOLO] (the cases are tried in this order, as the
    [if]/[elif] of the source); for an id the registry does not hold it is
    [SOLO] whatever the handle, in particular after [disband_team]. *)
Theorem get_team_role_cases (c : TeamTaskCoordinator) (team_id : string) (h : Z) :
  (∀ info, team_tasks c !! team_id = Some info →
     (h = leader info → get_team_role team_id h c = LEADER) ∧
     (h ≠ leader info → h ∈ members info → get_team_role team_id h c = MEMBER) ∧
     (h ≠ leader info → h ∉ members info → get_team_role team_id h c = SOLO)) ∧
  (team_tasks c !! team_id = None → get_team_role team_id h c = SOLO) ∧
  (same_keys c → get_team_role team_id h (disband_team team_id c).1 = SOLO).
Proof.
  unfold get_team_role. split; [|split].
  - intros info ->. repeat split.
    + intros ->. by rewrite bool_decide_eq_true_2.
    + intros Hl Hm. rewrite bool_decide_eq_false_2 by done.
      by rewrite bool_decide_eq_true_2.
    + intros Hl Hm. by rewrite !bool_decide_eq_false_2.
  - by intros ->.
  - intros Hk. by destruct (disband_team_absent team_id c Hk) as [-> _].
Qed.

Lemma get_team_role_cases_witness :
  let c := (create_team 5000000 5000000 "t" 1 [2; 3] coordinator_init).2 in
  get_team_role "t_1_5" 1 c = LEADER ∧
  get_team_role "t_1_5" 3 c = MEMBER ∧
  get_team_role "t_1_5" 4 c = SOLO ∧
  get_team_role "t_1_6" 1 c = SOLO ∧
  get_team_role "t_1_5" 1 (disband_team "t_1_5" c).1 = SOLO.
Proof.
  intros c.
  pose (info := {| task_name := "t"; leader := 1; members := [2; 3];
                   status := forming; created_at := 5000000 |}).
  assert (Hreg : team_tasks c !! "t_1_5" = Some info) by reflexivity.
  split; [|split; [|split; [|split]]].
  - apply (proj1 (get_team_role_cases c "t_1_5" 1) info Hreg). reflexivity.
  - apply (proj1 (get_team_role_cases c "t_1_5" 3) info Hreg).
    + simpl. lia.
    + compute_done.
  - apply (proj1 (get_team_role_cases c "t_1_5" 4) info Hreg).
    + simpl. lia.
    + compute_done.
  - apply (proj1 (proj2 (get_team_role_cases c "t_1_6" 1))). reflexivity.
  - apply (proj2 (proj2 (get_team_role_cases c "t_1_5" 1))).
    split; reflexivity.
Defined.

(** C10.  After [create_team] returns an id, [get_team_members] of that
    id is the leader followed by the given members, in order; for an id
    that [team_members] does not hold it is the empty list. *)
Theorem get_team_members_after_create (time_time now : Z) (task : string)
    (leader_hwnd : Z) (member_hwnds : list Z) (c : TeamTaskCoordinator) (other : string) :
  get_team_members (create_team time_time now task leader_hwnd member_hwnds c).1
                   (create_team time_time now task leader_hwnd member_hwnds c).2
    = leader_hwnd :: member_hwnds ∧
  (team_members c !! other = None → get_team_members other c = []).
Proof.
  split.
  - unfold get_team_members, create_team. simpl. by rewrite lookup_insert_eq.
  - unfold get_team_members. by intros ->.
Qed.

Lemma get_team_members_after_create_witness :
  get_team_members "t_1_5" (create_team 5000000 5000000 "t" 1 [2; 3] coordinator_init).2
    = [1; 2; 3] ∧
  get_team_members "t_1_5" coordinator_init = [].
Proof.
  split.
  - apply (proj1 (get_team_members_after_create
                    5000000 5000000 "t" 1 [2; 3] coordinator_init "")).
  - apply (proj2 (get_team_members_after_create
                    0 0 "" 0 [] coordinator_init "t_1_5")).
    reflexivity.
Defined.

(** * Team ids and the clock *)

Lemma get_team_members_create t now task l ms c :
  get_team_members (create_team t now task l ms c).1 (create_team t now task l ms c).2
    = l :: ms.
Proof. unfold get_team_members, create_team. simpl. by rewrite lookup_insert_eq. Qed.

(** Two readings of [time.time()] within one second give one id. *)
Lemma make_team_id_same_second task leader_hwnd t1 t2 :
  int_time t1 = int_time t2 →
  make_team_id task leader_hwnd t1 = make_team_id task leader_hwnd t2.
Proof. unfold make_team_id. by intros ->. Qed.

(** For one task name and one leader, readings in different seconds give
    different ids. *)
Lemma make_team_id_other_second task leader_hwnd t1 t2 :
  int_time t1 ≠ int_time t2 →
  make_team_id task leader_hwnd t1 ≠ make_team_id task leader_hwnd t2.
Proof.
  unfold make_team_id. intros Hne Heq. apply Hne.
  do 4 apply (inj (String.append _)) in Heq.
  by apply (inj pretty) in Heq.
Qed.

(** A second [create_team] in the same second, for the same task name
    and leader, replaces the team of the first. *)
Lemma create_team_overwrites t1 t2 now1 now2 task l ms1 ms2 c :
  int_time t1 = int_time t2 →
  team_tasks (create_team t2 now2 task l ms2 (create_team t1 now1 task l ms1 c).2).2
    = <[make_team_id task l t2 :=
          {| task_name := task; leader := l; members := ms2;
             status := forming; created_at := now2 |}]> (team_tasks c).
Proof.
  intros Ht. unfold create_team. cbn [snd team_tasks].
  rewrite (make_team_id_same_second task l t1 t2 Ht).
  apply insert_insert_eq.
Qed.

(** C1.  Two calls of [create_team] with the same task name and the same
    leader, a quarter and three quarters into the same second, return the
    same id; the second call overwrites the team of the first. *)
Theorem create_team_same_second_same_id :
  let r1 := create_team 1700000000250000 1700000000250000 "天庭降妖" 1001 [1002]
                        coordinator_init in
  let r2 := create_team 1700000000750000 1700000000750000 "天庭降妖" 1001 [1003]
                        r1.2 in
  r1.1 = r2.1 ∧
  get_team_members r1.1 r1.2 = [1001; 1002] ∧
  get_team_members r1.1 r2.2 = [1001; 1003] ∧
  size (team_tasks r2.2) = 1%nat.
Proof.
  intros r1 r2.
  assert (Hid : r1.1 = r2.1) by (apply make_team_id_same_second; reflexivity).
  split; [done|]. split; [|split].
  - apply get_team_members_create.
  - rewrite Hid. apply get_team_members_create.
  - subst r1 r2. rewrite create_team_overwrites by reflexivity.
    change (team_tasks coordinator_init) with (∅ : gmap string TeamInfo).
    rewrite insert_empty. apply map_size_singleton.
Qed.

(** * Waiting for a team *)

Lemma wait_for_team_ready_missing team_id timeout set_after c :
  team_events c !! team_id = None →
  wait_for_team_ready team_id timeout set_after c = Raise (KeyError team_id).
Proof. unfold wait_for_team_ready. by intros ->. Qed.

(** On a registered team whose event is not yet set, the wait with a
    positive timeout returns [True] when the event is set before the
    timeout, and [False] otherwise. *)
Lemma wait_for_team_ready_registered team_id timeout set_after c :
  team_events c !! team_id = Some {| is_set := false |} →
  0 < timeout →
  wait_for_team_ready team_id timeout set_after c
    = Ok (match set_after with
          | Some d => bool_decide (d < timeout * 1000000)
          | None => false
          end).
Proof.
  unfold wait_for_team_ready. intros -> Ht. simpl.
  destruct (Z.leb_spec timeout 0); [lia|].
  destruct set_after as [d|]; [|done].
  destruct (Z.ltb_spec d (timeout * 1000000)).
  - by rewrite bool_decide_eq_true_2.
  - rewrite bool_decide_eq_false_2; [done|lia].
Qed.

(** C3.  [wait_for_team_ready] raises [KeyError] on an id that was never
    created, and on the id of a team that was disbanded. *)
Theorem wait_for_team_ready_unknown_raises :
  let r := create_team 5000000 5000000 "t" 1 [2] coordinator_init in
  wait_for_team_ready "nosuch" 60 None coordinator_init = Raise (KeyError "nosuch") ∧
  wait_for_team_ready r.1 60 (Some 1000000) r.2 = Ok true ∧
  wait_for_team_ready r.1 60 (Some 1000000) (disband_team r.1 r.2).1
    = Raise (KeyError "t_1_5").
Proof.
  intros r. split; [|split].
  - by apply wait_for_team_ready_missing.
  - reflexivity.
  - by apply wait_for_team_ready_missing.
Qed.

(** * The status of a team along a sequence of calls *)

Lemma create_team_status t now task l ms c :
  status_of (create_team t now task l ms c).1 (create_team t now task l ms c).2
    = Some forming.
Proof. unfold status_of, create_team. simpl. by rewrite lookup_insert_eq. Qed.

Lemma set_team_ready_status team_id other c :
  status_of other (set_team_ready team_id c).1
    = if decide (other = team_id) then (λ _, ready) <$> status_of other c
      else status_of other c.
Proof.
  unfold status_of, set_team_ready.
  destruct (decide (other = team_id)) as [->|Hne].
  - destruct (team_tasks c !! team_id) as [info|] eqn:Ht.
    + destruct (team_events c !! team_id); simpl; by rewrite lookup_insert_eq.
    + simpl. by rewrite Ht.
  - destruct (team_tasks c !! team_id) as [info|] eqn:Ht; [|done].
    destruct (team_events c !! team_id); simpl; by rewrite lookup_insert_ne.
Qed.

(** Setting a team ready twice is setting it ready once. *)
Lemma set_team_ready_twice team_id c :
  same_keys c →
  set_team_ready team_id (set_team_ready team_id c).1
    = ((set_team_ready team_id c).1, Ok ()).
Proof.
  intros [Hm He]. unfold set_team_ready.
  destruct (team_tasks c !! team_id) as [info|] eqn:Ht; simpl; [|by rewrite Ht].
  destruct (team_events c !! team_id) as [ev|] eqn:Hev; simpl.
  - rewrite !lookup_insert_eq. by rewrite !insert_insert_eq.
  - exfalso. apply (not_elem_of_dom (team_events c)) in Hev.
    rewrite <- He in Hev. apply Hev, elem_of_dom; eauto.
Qed.

Lemma disband_team_status team_id other c :
  same_keys c →
  status_of other (disband_team team_id c).1
    = if decide (other = team_id) then None else status_of other c.
Proof.
  intros Hk. unfold status_of.
  destruct (decide (other = team_id)) as [->|Hne].
  - by destruct (disband_team_absent team_id c Hk) as [-> _].
  - by rewrite disband_team_other.
Qed.

(** A call that is not a [create_team] computing the id keeps a removed
    team removed and a ready team ready or removed. *)
Lemma run_op_status op team_id c :
  same_keys c → ¬ creates op team_id →
  (status_of team_id c = None → status_of team_id (run_op op c).1 = None) ∧
  (status_of team_id c = Some ready →
     status_of team_id (run_op op c).1 = Some ready ∨
     status_of team_id (run_op op c).1 = None).
Proof.
  intros Hk Hc. destruct op as [t now task l ms|id|id]; simpl in Hc;
    unfold run_op; cbn [fst].
  - assert (Hst : status_of team_id (create_team t now task l ms c).2
                  = status_of team_id c).
    { unfold status_of, create_team. simpl. by rewrite lookup_insert_ne. }
    rewrite Hst. split; [done|by left].
  - rewrite set_team_ready_status. case_decide; split; intros ->; simpl; auto.
  - rewrite disband_team_status by done. case_decide; split; auto.
Qed.

Lemma run_ops_status ops team_id c :
  same_keys c → Forall (λ op, ¬ creates op team_id) ops →
  (status_of team_id c = None → status_of team_id (run_ops ops c).1 = None) ∧
  (status_of team_id c = Some ready →
     status_of team_id (run_ops ops c).1 = Some ready ∨
     status_of team_id (run_ops ops c).1 = None).
Proof.
  intros Hk Hall. revert c Hk.
  induction Hall as [|op ops Hop Hall IH]; intros c Hk; simpl; [by split; auto|].
  destruct (run_op_same_keys op c Hk) as [Hk' Hok].
  destruct (run_op_status op team_id c Hk Hop) as [Hnone Hready].
  destruct (run_op op c) as [c' r]; simpl in *. subst r.
  destruct (IH c' Hk') as [IHnone IHready].
  split.
  - intros Hs. by apply IHnone, Hnone.
  - intros Hs. destruct (Hready Hs) as [Hr|Hn]; [by apply IHready|].
    right. by apply IHnone.
Qed.

(** C7.  A team is created [forming] and [set_team_ready] makes it
    [ready] and sets its event; a later [create_team] for the same task
    name and leader within the same second makes the ready team [forming]
    again with an event that is not set, and, after [disband_team], brings
    the removed id back. *)
Theorem create_team_resets_ready_team :
  let r1 := create_team 5200000 5200000 "t" 1 [2] coordinator_init in
  let c2 := (set_team_ready r1.1 r1.2).1 in
  let r3 := create_team 5700000 5700000 "t" 1 [2] c2 in
  let c4 := (disband_team r1.1 c2).1 in
  let r5 := create_team 5900000 5900000 "t" 1 [2] c4 in
  status_of r1.1 r1.2 = Some forming ∧
  status_of r1.1 c2 = Some ready ∧
  is_set <$> team_events c2 !! r1.1 = Some true ∧
  r3.1 = r1.1 ∧
  status_of r1.1 r3.2 = Some forming ∧
  is_set <$> team_events r3.2 !! r1.1 = Some false ∧
  status_of r1.1 c4 = None ∧
  r5.1 = r1.1 ∧
  status_of r1.1 r5.2 = Some forming.
Proof.
  intros r1 c2 r3 c4 r5.
  split; [apply create_team_status|].
  split; [reflexivity|]. split; [reflexivity|].
  split; [by apply make_team_id_same_second|].
  split; [reflexivity|]. split; [reflexivity|].
  split; [reflexivity|].
  split; [by apply make_team_id_same_second|].
  reflexivity.
Qed.

(** * Properties of the task loop *)

Section task_loop.
Context (env : ExecEnv) (w : WindowInfo).

Lemma _execute_team_task_results name f cfg st :
  results (_execute_team_task env w name f cfg st).1 = results st.
Proof.
  unfold _execute_team_task.
  by destruct (_get_teammates_for_task w (default 5 (team_size cfg))).
Qed.

Lemma _execute_single_task_results name f cfg st :
  results (_execute_single_task env w name f cfg st).1 = results st.
Proof.
  unfold _execute_single_task.
  destruct (default false (is_team_task cfg)); [|done].
  apply _execute_team_task_results.
Qed.



Lemma run_one_task_dom t st :
  dom (results (run_one_task env w t st)) = {[t.1.1]} ∪ dom (results st).
Proof.
  destruct t as [[name f] cfg]. unfold run_one_task.
  pose proof (_execute_single_task_results name f cfg
    {| coord := coord st; tick := S (tick st); cur_team := cur_team st;
       results := results st |}) as Hres.
  destruct (_execute_single_task _ _ _ _ _ _) as [st1 r]. simpl in *.
  by rewrite dom_insert_L, Hres.
Qed.

(** Without a stop request, the keys of [results] after the loop are
    those it had before and the names of all the tasks. *)
Lemma run_tasks_dom i tasks st :
  stop_before env = None →
  dom (results (run_tasks env w i tasks st))
    = list_to_set (map (λ t : Task, t.1.1) tasks) ∪ dom (results st).
Proof.
  intros Hstop. revert i st.
  induction tasks as [|t rest IH]; intros i st; simpl.
  - by rewrite (left_id_L ∅ (∪)).
  - unfold stopped. rewrite Hstop. rewrite IH, run_one_task_dom.
    rewrite (assoc_L (∪)). f_equal. apply (comm_L (∪)).
Qed.

Lemma run_tasks_size tasks :
  stop_before env = None →
  NoDup (map (λ t : Task, t.1.1) tasks) →
  ∀ c k ct,
    size (results (run_tasks env w 0 tasks
            {| coord := c; tick := k; cur_team := ct; results := ∅ |}))
      = length tasks.
Proof.
  intros Hstop Hnd c k ct.
  rewrite <- size_dom, run_tasks_dom by done. simpl.
  rewrite dom_empty_L, (right_id_L ∅ (∪)).
  rewrite size_list_to_set by done. apply length_map.
Qed.
End task_loop.



(** * Properties of an executor's run *)

Section executor_run.
Context (env : ExecEnv) (w : WindowInfo).

Lemma _execute_single_task_same_keys name f cfg st :
  same_keys (coord st) →
  same_keys (coord (_execute_single_task env w name f cfg st).1).
Proof.
  intros Hk. unfold _execute_single_task, _execute_team_task.
  destruct (default false (is_team_task cfg)); [|done].
  destruct (_get_teammates_for_task w (default 5 (team_size cfg))); [done|].
  simpl. by apply (create_team_same_keys _ _ _ _ _ (coord st)).
Qed.

Lemma run_one_task_same_keys t st :
  same_keys (coord st) → same_keys (coord (run_one_task env w t st)).
Proof.
  intros Hk. destruct t as [[name f] cfg]. unfold run_one_task.
  pose proof (_execute_single_task_same_keys name f cfg
    {| coord := coord st; tick := S (tick st); cur_team := cur_team st;
       results := results st |} Hk) as Hk'.
  by destruct (_execute_single_task _ _ _ _ _ _) as [st1 r].
Qed.

Lemma run_tasks_same_keys i tasks st :
  same_keys (coord st) → same_keys (coord (run_tasks env w i tasks st)).
Proof.
  revert i st. induction tasks as [|t rest IH]; intros i st Hk; simpl; [done|].
  destruct (stopped env i); [done|]. by apply IH, run_one_task_same_keys.
Qed.
End executor_run.

(** From a registry whose dictionaries share their keys, a fresh
    executor's run returns a dictionary that carries the window's handle
    (it does not raise), keeps the keys shared, and leaves the team named
    by [current_team_id] out of the registry. *)
Lemma execute_all_tasks_returns env w c :
  same_keys c →
  ∃ ex' c' r,
    execute_all_tasks env (executor_init w) c = (ex', c', Ok r) ∧
    result_hwnd r = hwnd w ∧
    same_keys c' ∧
    (∀ team_id, current_team_id ex' = Some team_id → team_id ≠ "" →
       absent team_id c').
Proof.
  intros Hk. unfold execute_all_tasks, executor_init. simpl.
  set (st0 := {| coord := c; tick := 0%nat; cur_team := None; results := ∅ |}).
  assert (Hk0 : same_keys (coord st0)) by done.
  destruct (connect_raises env) as [e|].
  - simpl. do 3 eexists. split; [done|]. repeat split; try done; apply Hk.
  - pose proof (run_tasks_same_keys env w 0 (task_sequence env) st0 Hk0) as Hk1.
    destruct (cur_team (run_tasks env w 0 (task_sequence env) st0))
      as [team_id|] eqn:Hcur; simpl.
    + destruct (decide (team_id = "")) as [->|Hne].
      * simpl. do 3 eexists. split; [done|]. simpl.
        split; [done|]. split; [done|]. intros ? [= <-] ?. done.
      * rewrite bool_decide_eq_false_2 by done. simpl.
        destruct (disband_team_same_keys team_id _ Hk1) as [Hk2 Hok].
        pose proof (disband_team_absent team_id _ Hk1) as Habs.
        destruct (disband_team team_id _) as [c' r]. simpl in *. subst r.
        do 3 eexists. split; [done|]. simpl.
        split; [done|]. split; [done|]. by intros ? [= <-] _.
    + do 3 eexists. split; [done|]. simpl.
      split; [done|]. split; [done|]. by intros ? [=].
Qed.

(** C4.  An executor whose pipeline has two team tasks creates a team
    for each, and disbands at the end of its run the second one only: the
    team of the first task stays in the three dictionaries. *)
Theorem execute_all_tasks_leaves_first_team :
  let pipeline := [("A", returns_dict, team_config); ("B", returns_dict, team_config)] in
  let run := execute_all_tasks (demo_env pipeline) (executor_init demo_window)
                               coordinator_init in
  is_ok run.2 = true ∧
  current_team_id run.1.1 = Some "B_1_5" ∧
  absent "B_1_5" run.1.2 ∧
  status_of "A_1_1" run.1.2 = Some forming ∧
  get_team_members "A_1_1" run.1.2 = [1; 2] ∧
  is_Some (team_events run.1.2 !! "A_1_1").
Proof.
  intros pipeline run.
  assert (Hrun : run.1.2 = (create_team 1000000 2000000 "A" 1 [2] coordinator_init).2
                 ∧ is_ok run.2 = true ∧ current_team_id run.1.1 = Some "B_1_5").
  { vm_compute. repeat split; reflexivity. }
  destruct Hrun as (Hc & Hok & Hcur). rewrite Hc.
  split; [done|]. split; [done|].
  split; [by repeat split|].
  split; [reflexivity|]. split; [reflexivity|]. by eexists.
Qed.

(** * Properties of [start_task] *)

Lemma start_task_returns_None envs ws d : (start_task envs ws d).2 = None.
Proof.
  unfold start_task. destruct ws as [|w ws]; [done|].
  destruct (is_running d); [done|].
  destruct (create_executors _ _ _ _) as [tasks|e]; [|done].
  by destruct (gather tasks (team_coordinator d)).
Qed.

Lemma create_executors_ok envs all ws i :
  (∀ j, (i ≤ j < i + length ws)%nat → ctor_raises (envs j) = None) →
  ∃ tasks,
    create_executors envs all i ws = Ok tasks ∧
    Forall2 (λ w t, t.2 = executor_init (set_available all w)) ws tasks.
Proof.
  revert i. induction ws as [|w ws IH]; intros i Hc; simpl.
  - exists []. by split.
  - rewrite (Hc i) by (simpl; lia).
    destruct (IH (S i)) as (tasks & -> & Hall).
    { intros j Hj. apply Hc. simpl. lia. }
    eexists. split; [done|]. by constructor.
Qed.

Lemma gather_outcomes all ws tasks c :
  same_keys c →
  Forall2 (λ w t, t.2 = executor_init (set_available all w)) ws tasks →
  same_keys (gather tasks c).1 ∧
  Forall2 (λ w r, ∃ res, r = Ok res ∧ result_hwnd res = hwnd w) ws (gather tasks c).2.
Proof.
  intros Hk Hall. revert c Hk.
  induction Hall as [|w [env ex] ws tasks Hex Hall IH]; intros c Hk; simpl.
  - by split.
  - simpl in Hex. subst ex.
    destruct (execute_all_tasks_returns env (set_available all w) c Hk)
      as (ex' & c' & r & -> & Hh & Hk' & _).
    destruct (IH c' Hk') as [Hk'' Hrs].
    destruct (gather tasks c') as [c'' rs]. simpl in *.
    split; [done|]. constructor; [|done]. by exists r.
Qed.

(** C2, as the code has it.  For a non-empty selection, with no run
    active and every executor constructed, [start_task] builds one task
    per selected window and the [gather] it awaits yields one outcome per
    window, in the order of the selection, each a returned dictionary
    with that window's handle, whatever the tasks and the connection did;
    [start_task] itself returns [None] and shows no message box. *)
Theorem start_task_gathers_one_outcome_per_window (envs : nat → WindowEnv)
    (selected_windows : list WindowInfo) (d : DailyTasks) :
  selected_windows ≠ [] →
  is_running d = false →
  same_keys (team_coordinator d) →
  (∀ i, (i < length selected_windows)%nat → ctor_raises (envs i) = None) →
  ∃ tasks,
    create_executors envs (hwnd <$> selected_windows) 0 selected_windows = Ok tasks ∧
    length (gather tasks (team_coordinator d)).2 = length selected_windows ∧
    Forall2 (λ w r, ∃ res, r = Ok res ∧ result_hwnd res = hwnd w)
            selected_windows (gather tasks (team_coordinator d)).2 ∧
    start_task envs selected_windows d
      = ({| team_coordinator := (gather tasks (team_coordinator d)).1;
            is_running := false |}, [], None).
Proof.
  intros Hne Hrun Hk Hctor.
  destruct (create_executors_ok envs (hwnd <$> selected_windows) selected_windows 0)
    as (tasks & Hc & Hall).
  { intros j Hj. apply Hctor. lia. }
  exists tasks. split; [done|].
  destruct (gather_outcomes _ _ _ _ Hk Hall) as [_ Hrs].
  split; [symmetry; by eapply Forall2_length|]. split; [done|].
  unfold start_task. destruct selected_windows as [|w ws]; [done|].
  rewrite Hrun, Hc. by destruct (gather tasks (team_coordinator d)).
Qed.

Lemma start_task_gathers_one_outcome_per_window_witness :
  ∃ tasks,
    create_executors demo_envs [1; 2] 0 [demo_window; demo_window2] = Ok tasks ∧
    length (gather tasks coordinator_init).2 = 2%nat.
Proof.
  destruct (start_task_gathers_one_outcome_per_window
              demo_envs [demo_window; demo_window2] DailyTasks_init)
    as (tasks & Hc & Hl & _).
  - discriminate.
  - reflexivity.
  - split; reflexivity.
  - intros i _. reflexivity.
  - exists tasks. split; [exact Hc|exact Hl].
Defined.

(** C2, as stated: [start_task] on one selected window does not return a
    report with one entry; it returns [None]. *)
Lemma start_task_returns_no_report :
  ¬ ∃ report : list (Res ExecResult),
      (start_task demo_envs [demo_window] DailyTasks_init).2 = Some report ∧
      length report = 1%nat.
Proof. intros (report & Hr & _). by rewrite start_task_returns_None in Hr. Qed.

(** * The bound on running tasks *)

Section manager.
Implicit Types (m : GameAutomationManager) (l : list (string * Phase)).

Lemma running_cons id p l :
  Z.of_nat (length (filter (λ t : string * Phase, t.2 = Running) ((id, p) :: l)))
    = runs p + Z.of_nat (length (filter (λ t : string * Phase, t.2 = Running) l)).
Proof.
  rewrite filter_cons. unfold runs. simpl.
  destruct (decide (p = Running)); simpl; lia.
Qed.

(** Replacing the phase of one task changes the count by the
    difference of the two phases. *)
Lemma running_insert l i id p p' :
  l !! i = Some (id, p) →
  Z.of_nat (length (filter (λ t : string * Phase, t.2 = Running) (<[i := (id, p')]> l)))
    = Z.of_nat (length (filter (λ t : string * Phase, t.2 = Running) l))
      - runs p + runs p'.
Proof.
  revert i. induction l as [|[id0 p0] l IH]; intros i Hl; [done|].
  destruct i as [|i]; simpl in Hl.
  - injection Hl as -> ->. simpl. rewrite !running_cons. lia.
  - simpl. rewrite !running_cons, (IH i Hl). lia.
Qed.

Lemma running_app_waiting l id :
  length (filter (λ t : string * Phase, t.2 = Running) (l ++ [(id, Waiting)]))
    = length (filter (λ t : string * Phase, t.2 = Running) l).
Proof. rewrite filter_app, length_app. simpl. lia. Qed.

Lemma _task_done_callback_running id r m :
  running_count (_task_done_callback id r m) = running_count m ∧
  semaphore (_task_done_callback id r m) = semaphore m ∧
  max_concurrent (_task_done_callback id r m) = max_concurrent m.
Proof. unfold _task_done_callback. by destruct r. Qed.

Lemma manager_init_inv K m : manager_init K = Ok m → manager_inv K m.
Proof.
  unfold manager_init. destruct (Z.ltb_spec K 0); [done|].
  intros [= <-]. unfold manager_inv, running_count. simpl. lia.
Qed.

(** Every event keeps the counter and the running tasks adding up to
    the limit. *)
Lemma manager_step_inv K ev m m' :
  manager_inv K m → manager_step ev m = Some m' → manager_inv K m'.
Proof.
  intros (Hmax & Hpos & Hsum). unfold manager_inv.
  destruct ev as [name|i|i r|i]; simpl.
  - intros [= <-]. unfold running_count. simpl.
    rewrite running_app_waiting. by fold (running_count m).
  - destruct (tasks m !! i) as [[id [| |]]|] eqn:Hi; try done.
    destruct (Z.ltb_spec 0 (semaphore m)); [|done].
    intros [= <-]. unfold running_count. simpl.
    rewrite (running_insert _ _ _ _ _ Hi). fold (running_count m).
    unfold runs. simpl. lia.
  - destruct (tasks m !! i) as [[id [| |]]|] eqn:Hi; try done.
    intros [= <-]. unfold running_count. simpl.
    rewrite (running_insert _ _ _ _ _ Hi). fold (running_count m).
    unfold runs. simpl. lia.
  - destruct (tasks m !! i) as [[id [| |]]|] eqn:Hi; try done; intros [= <-];
      unfold running_count; simpl;
      rewrite (running_insert _ _ _ _ _ Hi); fold (running_count m);
      unfold runs; simpl; lia.
Qed.

Lemma manager_run_inv K evs m m' :
  manager_inv K m → manager_run evs m = Some m' → manager_inv K m'.
Proof.
  revert m. induction evs as [|ev evs IH]; intros m Hinv; simpl.
  - by intros [= <-].
  - destruct (manager_step ev m) as [m1|] eqn:Hstep; [|done].
    apply IH. by eapply manager_step_inv.
Qed.
End manager.

(** C6.  In every state a manager created with limit [K] reaches, by any
    sequence of submissions, entries into the semaphore, completions and
    cancellations, at most [K] task bodies are executing; and when [K]
    are, no further task can enter. *)
Theorem running_tasks_bounded (K : Z) (evs : list ManagerEvent)
    (m0 m : GameAutomationManager) :
  manager_init K = Ok m0 →
  manager_run evs m0 = Some m →
  max_concurrent m = K ∧
  Z.of_nat (running_count m) ≤ K ∧
  (Z.of_nat (running_count m) = K → ∀ i, manager_step (EvAcquire i) m = None).
Proof.
  intros Hinit Hrun.
  destruct (manager_run_inv K evs m0 m (manager_init_inv K m0 Hinit) Hrun)
    as (Hmax & Hpos & Hsum).
  split; [done|]. split; [lia|].
  intros Hfull i. simpl.
  destruct (tasks m !! i) as [[id [| |]]|]; try done.
  destruct (Z.ltb_spec 0 (semaphore m)); [lia|done].
Qed.

Lemma running_tasks_bounded_witness :
  Z.of_nat (running_count demo_full) ≤ 2 ∧
  manager_step (EvAcquire 1) demo_full = None.
Proof.
  pose proof (running_tasks_bounded 2 demo_events demo_manager demo_full
                eq_refl eq_refl) as (_ & Hle & Hfull).
  split; [exact Hle|]. apply Hfull. reflexivity.
Defined.

(** * Further properties of the coordinator *)

(** X1.  No sequence of [create_team], [set_team_ready] and
    [disband_team] calls on a new coordinator raises, and after it the
    three dictionaries have the same keys. *)
Theorem coordinator_calls_never_raise (ops : list CoordOp) :
  (run_ops ops coordinator_init).2 = Ok () ∧
  same_keys (run_ops ops coordinator_init).1.
Proof.
  destruct (run_ops_same_keys ops coordinator_init same_keys_init) as [Hk Hok].
  by split.
Qed.

(** X2.  For one task name and one leader, two readings of the clock
    give the same team id exactly when they fall in the same whole
    second. *)
Theorem team_id_same_iff_same_second (task : string) (leader_hwnd t1 t2 : Z) :
  make_team_id task leader_hwnd t1 = make_team_id task leader_hwnd t2
  ↔ int_time t1 = int_time t2.
Proof.
  split.
  - intros Heq. destruct (decide (int_time t1 = int_time t2)) as [|Hne]; [done|].
    by destruct (make_team_id_other_second task leader_hwnd t1 t2 Hne).
  - apply make_team_id_same_second.
Qed.

(** X3.  A coordinator call reads and writes the entries of one team id
    only: under any other id the three dictionaries hold what they held
    before the call, also when the call raises. *)
Theorem other_teams_untouched (op : CoordOp) (other : string) (c : TeamTaskCoordinator) :
  other ≠ op_target op →
  team_tasks (run_op op c).1 !! other = team_tasks c !! other ∧
  team_members (run_op op c).1 !! other = team_members c !! other ∧
  team_events (run_op op c).1 !! other = team_events c !! other.
Proof.
  intros Hne. destruct op as [t now task l ms|id|id]; simpl in Hne;
    unfold run_op; cbn [fst].
  - unfold create_team. simpl. by rewrite !lookup_insert_ne.
  - unfold set_team_ready. destruct (team_tasks c !! id); [|done].
    destruct (team_events c !! id); simpl; by rewrite ?lookup_insert_ne.
  - unfold disband_team. destruct (team_tasks c !! id); [|done].
    destruct (team_members c !! id); simpl; by rewrite ?lookup_delete_ne.
Qed.

Lemma other_teams_untouched_witness :
  let c := (create_team 5000000 5000000 "t" 1 [2] coordinator_init).2 in
  team_members (disband_team "u_1_5" c).1 !! "t_1_5" = Some [1; 2].
Proof.
  intros c.
  apply (proj1 (proj2 (other_teams_untouched (OpDisband "u_1_5") "t_1_5" c
                         ltac:(discriminate)))).
Defined.

(** X4.  Once [set_team_ready] has been called for a registered team, a
    wait for it with a positive timeout returns [True] at once, whenever
    anything else happens; with a timeout of zero or less it returns
    [False] although the team is ready. *)
Theorem ready_team_wait_returns (ops : list CoordOp) (team_id : string)
    (timeout : Z) (set_after : option Z) :
  let c := (run_ops ops coordinator_init).1 in
  let c' := (set_team_ready team_id c).1 in
  is_Some (team_tasks c !! team_id) →
  status_of team_id c' = Some ready ∧
  wait_for_team_ready team_id timeout set_after c'
    = Ok (bool_decide (0 < timeout)).
Proof.
  intros c c' [info Hinfo].
  destruct (run_ops_same_keys ops coordinator_init same_keys_init) as [[Hm He] _].
  fold c in Hm, He.
  assert (Hev : is_Some (team_events c !! team_id)).
  { apply elem_of_dom. rewrite <- He. apply elem_of_dom. eauto. }
  destruct Hev as [ev Hev].
  subst c'. unfold status_of, wait_for_team_ready, set_team_ready.
  rewrite Hinfo, Hev. simpl. rewrite !lookup_insert_eq. simpl.
  split; [done|].
  destruct (Z.leb_spec timeout 0).
  - rewrite bool_decide_eq_false_2; [done|lia].
  - by rewrite bool_decide_eq_true_2.
Qed.

Lemma ready_team_wait_returns_witness :
  let c := (create_team 5000000 5000000 "t" 1 [2] coordinator_init).2 in
  wait_for_team_ready "t_1_5" 60 None (set_team_ready "t_1_5" c).1 = Ok true ∧
  wait_for_team_ready "t_1_5" 0 None (set_team_ready "t_1_5" c).1 = Ok false.
Proof.
  intros c. split.
  - apply (proj2 (ready_team_wait_returns
                    [OpCreate 5000000 5000000 "t" 1 [2]] "t_1_5" 60 None
                    (mk_is_Some _ _ eq_refl))).
  - apply (proj2 (ready_team_wait_returns
                    [OpCreate 5000000 5000000 "t" 1 [2]] "t_1_5" 0 None
                    (mk_is_Some _ _ eq_refl))).
Defined.

(** X5.  On every registry the coordinator's calls can build, a second
    [set_team_ready] for the same team changes nothing, and
    [set_team_ready] for an id that is not registered changes nothing;
    neither raises. *)
Theorem set_team_ready_idempotent (ops : list CoordOp) (team_id : string) :
  let c := (run_ops ops coordinator_init).1 in
  let c1 := (set_team_ready team_id c).1 in
  (set_team_ready team_id c).2 = Ok () ∧
  set_team_ready team_id c1 = (c1, Ok ()) ∧
  (team_tasks c !! team_id = None → set_team_ready team_id c = (c, Ok ())).
Proof.
  intros c c1.
  assert (Hk : same_keys c) by apply run_ops_same_keys, same_keys_init.
  split; [by apply set_team_ready_same_keys|].
  split; [by apply set_team_ready_twice|].
  intros Hnone. unfold set_team_ready. by rewrite Hnone.
Qed.

(** X6.  Along calls none of which is a [create_team] computing the id,
    a team that is ready stays ready until it is removed, and a removed
    or never created id stays unregistered. *)
Theorem status_keeps_without_collision (before ops : list CoordOp) (team_id : string) :
  let c := (run_ops before coordinator_init).1 in
  Forall (λ op, ¬ creates op team_id) ops →
  (status_of team_id c = None → status_of team_id (run_ops ops c).1 = None) ∧
  (status_of team_id c = Some ready →
     status_of team_id (run_ops ops c).1 = Some ready ∨
     status_of team_id (run_ops ops c).1 = None).
Proof.
  intros c Hall. apply run_ops_status; [|done].
  apply run_ops_same_keys, same_keys_init.
Qed.

Lemma status_keeps_without_collision_witness :
  let before := [OpCreate 5000000 5000000 "t" 1 [2]; OpSetReady "t_1_5"] in
  let ops := [OpCreate 5000000 5000000 "u" 1 [2]; OpSetReady "t_1_5"; OpSetReady "u_1_5"] in
  status_of "t_1_5" (run_ops ops (run_ops before coordinator_init).1).1 = Some ready ∨
  status_of "t_1_5" (run_ops ops (run_ops before coordinator_init).1).1 = None.
Proof.
  intros before ops.
  apply (proj2 (status_keeps_without_collision before ops "t_1_5"
                  ltac:(repeat constructor; simpl; try discriminate; tauto))).
  reflexivity.
Defined.

(** X7.  For the team [create_team] has just registered, the leader has
    the role [LEADER], and the handles with a role other than [SOLO] are
    exactly those [get_team_members] lists. *)
Theorem created_team_roles_match_members (time_time now : Z) (task : string)
    (leader_hwnd : Z) (member_hwnds : list Z) (c : TeamTaskCoordinator) (h : Z) :
  let r := create_team time_time now task leader_hwnd member_hwnds c in
  get_team_role r.1 leader_hwnd r.2 = LEADER ∧
  (get_team_role r.1 h r.2 ≠ SOLO ↔ h ∈ get_team_members r.1 r.2).
Proof.
  intros r. subst r. rewrite get_team_members_create.
  unfold get_team_role, create_team. simpl. rewrite lookup_insert_eq. simpl.
  split; [by rewrite bool_decide_eq_true_2|].
  rewrite elem_of_cons.
  destruct (decide (h = leader_hwnd)) as [->|Hne].
  - rewrite bool_decide_eq_true_2 by done. split; [by left|done].
  - rewrite bool_decide_eq_false_2 by done.
    destruct (decide (h ∈ member_hwnds)) as [Hin|Hnin].
    + rewrite bool_decide_eq_true_2 by done. split; [by right|done].
    + rewrite bool_decide_eq_false_2 by done. split; [done|]. by intros [?|?].
Qed.

(** * Further properties of the executor *)

Lemma py_slice_to_take {A} (l : list A) (n : Z) :
  py_slice_to l n = take (Z.to_nat (if 0 <=? n then n else Z.of_nat (length l) + n)) l.
Proof. unfold py_slice_to. by destruct (0 <=? n). Qed.

Lemma _get_teammates_for_task_take w team_size :
  ∃ k, _get_teammates_for_task w team_size
       = take k (filter (λ h, h ≠ hwnd w) (default [] (available_windows w))).
Proof.
  unfold _get_teammates_for_task.
  destruct (filter _ _) as [|h t] eqn:Hf.
  - by exists 0%nat.
  - rewrite py_slice_to_take. by eexists.
Qed.

(** X8.  The teammates chosen for a task never include the window
    itself, are all among the available windows, number at most
    [team_size - 1] when the team size is at least 1, and are none when
    the window has no ['available_windows']. *)
Theorem teammates_exclude_self_and_bounded (w : WindowInfo) (team_size : Z) :
  (hwnd w ∉ _get_teammates_for_task w team_size) ∧
  (_get_teammates_for_task w team_size) ⊆ (default [] (available_windows w)) ∧
  (1 ≤ team_size →
     Z.of_nat (length (_get_teammates_for_task w team_size)) ≤ team_size - 1) ∧
  (available_windows w = None → _get_teammates_for_task w team_size = []).
Proof.
  destruct (_get_teammates_for_task_take w team_size) as [k Hk].
  split; [|split; [|split]].
  - rewrite Hk. intros Hin. apply (subseteq_take k) in Hin.
    apply list_elem_of_filter in Hin as [Hne _]. done.
  - rewrite Hk. intros h Hin. apply (subseteq_take k) in Hin.
    by apply list_elem_of_filter in Hin as [_ Hin].
  - intros Hsize. unfold _get_teammates_for_task.
    destruct (filter _ _) as [|h t]; [simpl; lia|].
    rewrite py_slice_to_take.
    destruct (Z.leb_spec 0 (team_size - 1)); [|lia].
    pose proof (firstn_le_length (Z.to_nat (team_size - 1)) (h :: t)). lia.
  - intros Hnone. unfold _get_teammates_for_task. by rewrite Hnone.
Qed.

(** X9.  With a team size of zero or less the slice [teammates[:team_size - 1]]
    counts from the end: the executor still takes teammates, all but the
    last [1 - team_size] of the other windows. *)
Theorem teammates_nonpositive_team_size (w : WindowInfo) (team_size : Z) :
  team_size ≤ 0 →
  let others := filter (λ h, h ≠ hwnd w) (default [] (available_windows w)) in
  _get_teammates_for_task w team_size
    = take (length others - Z.to_nat (1 - team_size)) others.
Proof.
  intros Hsize others. unfold _get_teammates_for_task. fold others.
  destruct others as [|h t] eqn:Ho; [done|].
  rewrite py_slice_to_take.
  destruct (Z.leb_spec 0 (team_size - 1)); [lia|].
  f_equal. lia.
Qed.

Lemma teammates_nonpositive_team_size_witness :
  _get_teammates_for_task
    {| hwnd := 1; title := "w1"; available_windows := Some [1; 2; 3; 4] |} 0
  = [2; 3].
Proof.
  apply (teammates_nonpositive_team_size
           {| hwnd := 1; title := "w1"; available_windows := Some [1; 2; 3; 4] |} 0).
  lia.
Defined.

(** X10.  In a team task with at least one teammate the executor
    registers a team of its own, with itself first in the member list,
    remembers its id, and calls the automation function as [LEADER] of
    that team: what the function returns comes back with ['role'] set to
    ['leader'] and ['team_id'] to the id. *)
Theorem team_task_runs_as_leader (env : ExecEnv) (w : WindowInfo) (name : string)
    (f : TaskFunc) (cfg : TaskConfig) (st : LoopState) :
  let teammates := _get_teammates_for_task w (default 5 (team_size cfg)) in
  let team_id := make_team_id name (hwnd w) (clock env (tick st)) in
  let r := _execute_team_task env w name f cfg st in
  teammates ≠ [] →
  cur_team r.1 = Some team_id ∧
  get_team_members team_id (coord r.1) = hwnd w :: teammates ∧
  r.2 = match f (CallTeam LEADER team_id) with
        | Raise e => Raise e
        | Ok ObjNone => Raise (TypeError "'NoneType' object does not support item assignment")
        | Ok (ObjDict d) =>
            Ok (ObjDict (<["team_id" := VStr team_id]> (<["role" := VStr "leader"]> d)))
        end.
Proof.
  intros teammates team_id r Hne. subst r. unfold _execute_team_task.
  fold teammates. destruct teammates as [|h t] eqn:Ht; [done|].
  cbn [create_team fst snd cur_team coord]. fold team_id.
  split; [done|]. split.
  - unfold get_team_members. simpl. by rewrite lookup_insert_eq.
  - unfold get_team_role. cbn [team_tasks]. rewrite lookup_insert_eq.
    cbn [leader]. rewrite bool_decide_eq_true_2 by done.
    destruct (f (CallTeam LEADER team_id)) as [[d|]|e]; done.
Qed.

Lemma team_task_runs_as_leader_witness :
  cur_team (_execute_team_task (demo_env []) demo_window "A" returns_dict team_config
              (loop_init coordinator_init None)).1 = Some "A_1_0".
Proof.
  apply (proj1 (team_task_runs_as_leader (demo_env []) demo_window "A" returns_dict
                  team_config (loop_init coordinator_init None)
                  ltac:(discriminate))).
Defined.

Lemma run_tasks_no_teammates env w i tasks st :
  filter (λ h, h ≠ hwnd w) (default [] (available_windows w)) = [] →
  coord (run_tasks env w i tasks st) = coord st ∧
  cur_team (run_tasks env w i tasks st) = cur_team st.
Proof.
  intros Hnone. revert i st.
  induction tasks as [|[[name f] cfg] rest IH]; intros i st; [done|].
  cbn [run_tasks]. destruct (stopped env i); [done|].
  destruct (IH (S i) (run_one_task env w (name, f, cfg) st)) as [-> ->].
  unfold run_one_task, _execute_single_task, _execute_team_task,
    _get_teammates_for_task. rewrite Hnone.
  by destruct (default false (is_team_task cfg)).
Qed.

(** X11.  A run started for a single selected window never touches the
    team registry: the window has no teammate, so team tasks run solo,
    no team is created and none is disbanded. *)
Theorem single_window_run_leaves_registry (envs : nat → WindowEnv) (w : WindowInfo)
    (d : DailyTasks) :
  team_coordinator (start_task envs [w] d).1.1 = team_coordinator d.
Proof.
  unfold start_task. destruct (is_running d); [done|]. simpl.
  destruct (ctor_raises (envs 0%nat)); [done|]. simpl.
  unfold execute_all_tasks, executor_init. simpl.
  destruct (connect_raises (run_env (envs 0%nat))); [done|].
  set (w' := set_available [hwnd w] w).
  set (st0 := {| coord := team_coordinator d; tick := 0%nat; cur_team := None;
                 results := ∅ |}).
  destruct (run_tasks_no_teammates (run_env (envs 0%nat)) w' 0
              (task_sequence (run_env (envs 0%nat))) st0) as [Hc Ht].
  { simpl. by rewrite filter_cons_False, filter_nil by (intros H; by apply H). }
  rewrite Ht. simpl. by rewrite Hc.
Qed.



(** X13.  A solo task whose function returns a dictionary is recorded as
    a success with the role ['solo'], whatever ['role'] the dictionary
    had, with the dictionary's own ['team_id'] or [None], and with the
    difference of the two clock readings around it; the registry and the
    remembered team id stay as they were. *)
Theorem solo_task_success_entry (env : ExecEnv) (w : WindowInfo) (name : string)
    (f : TaskFunc) (cfg : TaskConfig) (st : LoopState) (d : gmap string PyVal) :
  default false (is_team_task cfg) = false →
  f (CallSolo (hwnd w)) = Ok (ObjDict d) →
  run_one_task env w (name, f, cfg) st
    = {| coord := coord st; tick := S (S (tick st)); cur_team := cur_team st;
         results :=
           <[name := task_success (clock env (S (tick st)) - clock env (tick st))
                       (VStr "solo") (default VNone (d !! "team_id"))
                       (strftime_HMS (clock env (tick st)))
                       (strftime_HMS (clock env (S (tick st))))]> (results st) |}.
Proof.
  intros Hsolo Hf. unfold run_one_task, _execute_single_task, _execute_solo_task.
  rewrite Hsolo, Hf. simpl. rewrite lookup_insert_eq. simpl.
  rewrite lookup_insert_ne by done. done.
Qed.

Lemma solo_task_success_entry_witness :
  results (run_one_task (demo_env []) demo_window
             ("a", returns_dict, solo_config) (loop_init coordinator_init None)) !! "a"
    = Some (task_success 1000000 (VStr "solo") VNone "00:00:00" "00:00:01").
Proof.
  rewrite (solo_task_success_entry (demo_env []) demo_window "a" returns_dict
             solo_config (loop_init coordinator_init None) ∅ eq_refl eq_refl).
  reflexivity.
Defined.

Lemma run_tasks_stop env w k i tasks st :
  stop_before env = Some k →
  run_tasks env w i tasks st
    = run_tasks (never_stopped env) w i (take (k - i) tasks) st.
Proof.
  intros Hstop. revert i st.
  induction tasks as [|t rest IH]; intros i st; [by rewrite take_nil|].
  cbn [run_tasks]. unfold stopped at 1. rewrite Hstop.
  destruct (decide (k ≤ i)%nat) as [Hle|Hgt].
  - rewrite bool_decide_eq_true_2 by done.
    by replace (k - i)%nat with 0%nat by lia.
  - rewrite bool_decide_eq_false_2 by done.
    replace (k - i)%nat with (S (k - S i)) by lia.
    cbn [take run_tasks]. unfold stopped at 1. cbn [never_stopped stop_before].
    by rewrite IH.
Qed.

(** X14.  When a stop request is seen at the check before the task of
    index [k], the loop has run the first [k] tasks exactly as a run
    without stop request would, and none of the later ones: [results] has
    the names of the first [k] tasks as its keys. *)
Theorem stop_request_cuts_pipeline (env : ExecEnv) (w : WindowInfo) (k : nat)
    (tasks : list Task) (c : TeamTaskCoordinator) (team : option string) :
  stop_before env = Some k →
  run_tasks env w 0 tasks (loop_init c team)
    = run_tasks (never_stopped env) w 0 (take k tasks) (loop_init c team) ∧
  dom (results (run_tasks env w 0 tasks (loop_init c team)))
    = list_to_set (map (λ t : Task, t.1.1) (take k tasks)).
Proof.
  intros Hstop.
  pose proof (run_tasks_stop env w k 0 tasks (loop_init c team) Hstop) as Heq.
  rewrite Nat.sub_0_r in Heq. split; [done|].
  rewrite Heq, run_tasks_dom by done. simpl.
  by rewrite dom_empty_L, (right_id_L ∅ (∪)).
Qed.

Lemma stop_request_cuts_pipeline_witness :
  let env := {| clock := demo_clock; connect_raises := None; stop_before := Some 1%nat;
                task_sequence := [] |} in
  dom (results (run_tasks env demo_window 0
                  [("a", boom, solo_config); ("b", boom, solo_config)]
                  (loop_init coordinator_init None)))
    = list_to_set ["a"].
Proof.
  intros env.
  apply (proj2 (stop_request_cuts_pipeline env demo_window 1
                  [("a", boom, solo_config); ("b", boom, solo_config)]
                  coordinator_init None eq_refl)).
Defined.





(** X16.  The shipped pipeline has the one task ['帮派任务'].  On a window
    whose title does not contain ['雷电模拟器'] the task is recorded as
    failed, since [bang_pai_ren_wu] uses a local function it has not
    defined; on an emulator window whose touch does not raise it is
    recorded as a success with the role ['solo'].  In both cases the run
    reports the status success and leaves the registry as it was. *)
Theorem shipped_pipeline_outcome (env : ExecEnv) (w : WindowInfo)
    (touch_async : Res bool) (time_time : Z) (c : TeamTaskCoordinator) :
  connect_raises env = None →
  stopped env 0 = false →
  task_sequence env = _get_task_sequence (bang_pai_ren_wu w touch_async time_time) →
  let entry :=
    if is_adb w then
      match touch_async with
      | Ok _ => task_success (clock env 1%nat - clock env 0%nat) (VStr "solo") VNone
                  (strftime_HMS (clock env 0%nat)) (strftime_HMS (clock env 1%nat))
      | Raise e => task_failed (str_exc e) (clock env 1%nat - clock env 0%nat)
                     (strftime_HMS (clock env 0%nat)) (strftime_HMS (clock env 1%nat))
      end
    else
      task_failed
        "cannot access local variable '_bangpai' where it is not associated with a value"
        (clock env 1%nat - clock env 0%nat)
        (strftime_HMS (clock env 0%nat)) (strftime_HMS (clock env 1%nat)) in
  execute_all_tasks env (executor_init w) c
    = (executor_init w, c,
       Ok (exec_success (hwnd w) {["帮派任务" := entry]}
                        (strftime_HMS (clock env 2%nat)))).
Proof.
  intros Hconn Hgo Hseq entry. subst entry.
  unfold execute_all_tasks, executor_init. simpl. rewrite Hconn, Hseq.
  unfold _get_task_sequence. cbn [run_tasks]. rewrite Hgo.
  unfold run_one_task, _execute_single_task, _execute_solo_task, bang_pai_ren_wu.
  cbn [default is_team_task tick coord cur_team results].
  destruct (is_adb w); [destruct touch_async as [b|e]|]; simpl; done.
Qed.

Lemma shipped_pipeline_outcome_witness :
  let env := demo_env (_get_task_sequence (bang_pai_ren_wu demo_window (Ok true) 0)) in
  (execute_all_tasks env (executor_init demo_window) coordinator_init).2
    = Ok (exec_success 1
            {["帮派任务" :=
                task_failed
                  "cannot access local variable '_bangpai' where it is not associated with a value"
                  1000000 "00:00:00" "00:00:01"]}
            "00:00:02").
Proof.
  intros env.
  rewrite (shipped_pipeline_outcome env demo_window (Ok true) 0 coordinator_init
             eq_refl eq_refl eq_refl).
  reflexivity.
Defined.

(** * Further properties of the task manager *)

Lemma manager_step_counter ev m m' :
  manager_step ev m = Some m' →
  task_counter m' = task_counter m + count_submits [ev].
Proof.
  destruct ev as [name|i|i r|i]; simpl.
  - intros [= <-]. simpl. lia.
  - destruct (tasks m !! i) as [[id [| |]]|]; try done.
    destruct (0 <? semaphore m); [|done]. intros [= <-]. simpl. lia.
  - destruct (tasks m !! i) as [[id [| |]]|]; try done. intros [= <-]. simpl. lia.
  - destruct (tasks m !! i) as [[id [| |]]|]; try done; intros [= <-]; simpl; lia.
Qed.

Lemma count_submits_nonneg evs : 0 ≤ count_submits evs.
Proof. induction evs as [|[]]; simpl; lia. Qed.

Lemma manager_run_counter evs m m' :
  manager_run evs m = Some m' →
  task_counter m' = task_counter m + count_submits evs.
Proof.
  revert m. induction evs as [|ev evs IH]; intros m; simpl.
  - intros [= <-]. lia.
  - destruct (manager_step ev m) as [m1|] eqn:Hstep; [|done].
    intros Hrun. rewrite (IH m1 Hrun), (manager_step_counter ev m m1 Hstep).
    destruct ev; simpl; lia.
Qed.

(** X17.  [task_counter] counts the calls of [submit_task], named or
    not, and nothing else changes it; so two submissions without a name
    made to one manager never get the same id. *)
Theorem unnamed_submissions_get_distinct_ids (evs : list ManagerEvent)
    (m m' : GameAutomationManager) :
  manager_run (EvSubmit None :: evs) m = Some m' →
  task_counter m' = task_counter m + 1 + count_submits evs ∧
  (submit_task None m).1 ≠ (submit_task None m').1.
Proof.
  intros Hrun. pose proof (manager_run_counter _ _ _ Hrun) as Hc.
  cbn [count_submits] in Hc. split; [lia|].
  unfold submit_task, submit_id. cbn [fst]. intros Heq.
  apply (inj (String.append _)), (inj pretty) in Heq.
  pose proof (count_submits_nonneg evs). lia.
Qed.

Lemma unnamed_submissions_get_distinct_ids_witness :
  (submit_task None demo_manager).1 ≠ (submit_task None demo_full).1.
Proof.
  apply (proj2 (unnamed_submissions_get_distinct_ids
                  (tail demo_events) demo_manager demo_full eq_refl)).
Defined.

(** X18.  When the body of a running task returns or raises, the task
    gives its permit back, leaves [active_tasks], and [task_results]
    holds under its id what it returned, or the failed entry with
    [str(e)]: the exception is recorded, not propagated. *)
Theorem finished_task_is_recorded (m : GameAutomationManager) (i : nat)
    (task_id : string) (r : Res PyObj) :
  tasks m !! i = Some (task_id, Running) →
  ∃ m', manager_step (EvFinish i r) m = Some m' ∧
        task_results m' !! task_id
          = Some (match r with
                  | Ok v => outcome_result v
                  | Raise e => outcome_failed (str_exc e)
                  end) ∧
        active_tasks m' !! task_id = None ∧
        semaphore m' = semaphore m + 1 ∧
        tasks m' !! i = Some (task_id, Finished).
Proof.
  intros Hi. simpl. rewrite Hi. eexists. split; [done|]. simpl.
  rewrite lookup_insert_eq, lookup_delete_eq.
  repeat split. apply list_lookup_insert_eq. by eapply lookup_lt_Some.
Qed.

Lemma finished_task_is_recorded_witness :
  ∃ m', manager_step (EvFinish 0 (Raise (Exception "boom"))) demo_full = Some m' ∧
        task_results m' !! "task_1" = Some (outcome_failed "boom").
Proof.
  destruct (finished_task_is_recorded demo_full 0 "task_1" (Raise (Exception "boom"))
              eq_refl) as (m' & Hstep & Hres & _).
  exists m'. split; [exact Hstep|exact Hres].
Defined.

(** X19.  Cancelling a task that has not finished ends it without a
    trace in the dictionaries: [task_results] gets no entry and
    [active_tasks] keeps the task, because the done callback is left by
    the [CancelledError]; the permit comes back when the task held one. *)
Theorem cancelled_task_leaves_no_result (m : GameAutomationManager) (i : nat)
    (task_id : string) (p : Phase) :
  tasks m !! i = Some (task_id, p) →
  p ≠ Finished →
  ∃ m', manager_step (EvCancel i) m = Some m' ∧
        task_results m' = task_results m ∧
        active_tasks m' = active_tasks m ∧
        semaphore m' = semaphore m + runs p ∧
        tasks m' !! i = Some (task_id, Finished).
Proof.
  intros Hi Hp. simpl. rewrite Hi.
  pose proof (lookup_lt_Some _ _ _ Hi) as Hlt.
  destruct p; [| |done]; eexists; (split; [done|]); simpl;
    (split; [done|]); (split; [done|]);
    (split; [unfold runs; simpl; lia|by apply list_lookup_insert_eq]).
Qed.

Lemma cancelled_task_leaves_no_result_witness :
  ∃ m', manager_step (EvCancel 1) demo_full = Some m' ∧
        task_results m' = task_results demo_full ∧
        active_tasks m' = active_tasks demo_full.
Proof.
  destruct (cancelled_task_leaves_no_result demo_full 1 "task_2" Waiting
              eq_refl ltac:(discriminate)) as (m' & Hstep & Hres & Hact & _).
  exists m'. split; [exact Hstep|]. split; [exact Hres|exact Hact].
Defined.

(** X20.  In every state a manager reaches, the semaphore counter is
    not negative and is the limit less the number of running bodies: no
    permit is lost or made up, and when nothing runs all are back. *)
Theorem permits_are_conserved (K : Z) (evs : list ManagerEvent)
    (m0 m : GameAutomationManager) :
  manager_init K = Ok m0 →
  manager_run evs m0 = Some m →
  0 ≤ semaphore m ∧
  semaphore m = K - Z.of_nat (running_count m) ∧
  (running_count m = 0%nat → semaphore m = K).
Proof.
  intros Hinit Hrun.
  destruct (manager_run_inv K evs m0 m (manager_init_inv K m0 Hinit) Hrun)
    as (Hmax & Hpos & Hsum).
  split; [done|]. split; lia.
Qed.

Lemma permits_are_conserved_witness :
  semaphore demo_full = 2 - Z.of_nat (running_count demo_full).
Proof.
  apply (proj1 (proj2 (permits_are_conserved 2 demo_events demo_manager demo_full
                         eq_refl eq_refl))).
Defined.

(** * Further properties of [start_task] and of its caller *)

(** X21.  [start_task] refuses an empty selection, and a non-empty one
    while a run is active, with one message box each; nothing is
    scheduled and the state is left as it was. *)
Theorem start_task_rejects_without_effect (envs : nat → WindowEnv)
    (selected_windows : list WindowInfo) (d : DailyTasks) :
  (selected_windows = [] →
   start_task envs selected_windows d = (d, ["请先选择要启动的窗口"], None)) ∧
  (selected_windows ≠ [] → is_running d = true →
   start_task envs selected_windows d = (d, ["任务正在执行中，请等待完成"], None)).
Proof.
  split.
  - by intros ->.
  - intros Hne Hrun. unfold start_task.
    destruct selected_windows; [done|]. by rewrite Hrun.
Qed.




Lemma create_executors_shape envs all ws i tasks :
  create_executors envs all i ws = Ok tasks →
  Forall2 (λ w t, t.2 = executor_init (set_available all w)) ws tasks.
Proof.
  revert i tasks. induction ws as [|w ws IH]; intros i tasks; simpl.
  - intros [= <-]. constructor.
  - destruct (ctor_raises (envs i)); [done|].
    destruct (create_executors envs all (S i) ws) as [ts|] eqn:Hts; [|done].
    intros [= <-]. constructor; [done|]. by eapply IH.
Qed.

(** X23.  [start_task] returns with the running flag as it found it:
    cleared after a run it has started, however the run went, so that a
    later call is not refused.  If the dictionaries of the registry had
    the same keys before the call, they have the same keys after it. *)
Theorem start_task_keeps_flag_and_keys (envs : nat → WindowEnv)
    (selected_windows : list WindowInfo) (d : DailyTasks) :
  is_running (start_task envs selected_windows d).1.1 = is_running d ∧
  (same_keys (team_coordinator d) →
   same_keys (team_coordinator (start_task envs selected_windows d).1.1)).
Proof.
  unfold start_task. destruct selected_windows as [|w ws]; [done|].
  destruct (is_running d) eqn:Hrun; [simpl; by split|].
  destruct (create_executors _ _ _ _) as [tasks|e] eqn:Hc; [|done].
  pose proof (create_executors_shape _ _ _ _ _ Hc) as Hall.
  split.
  - by destruct (gather tasks (team_coordinator d)).
  - intros Hk. destruct (gather_outcomes _ _ _ _ Hk Hall) as [Hk' _].
    by destruct (gather tasks (team_coordinator d)).
Qed.

Lemma start_task_keeps_flag_and_keys_witness :
  same_keys (team_coordinator
               (start_task demo_envs [demo_window; demo_window2] DailyTasks_init).1.1).
Proof.
  apply (proj2 (start_task_keeps_flag_and_keys demo_envs [demo_window; demo_window2]
                  DailyTasks_init)).
  split; reflexivity.
Defined.


(** X25.  After [get_selected_windows] has looked after it, a window
    dictionary has the key ['hwnd'] exactly when it had one of ['handle'],
    ['hwnd'], ['window_handle'], ['window']; the value of ['handle'], when
    there is one, replaces that of ['hwnd']; the other keys are left as
    they were. *)
Theorem ensure_hwnd_keys (window_info : gmap string PyVal) :
  (is_Some (ensure_hwnd window_info !! "hwnd") ↔ has_handle_key window_info) ∧
  (∀ v, window_info !! "handle" = Some v → ensure_hwnd window_info !! "hwnd" = Some v) ∧
  (∀ key, key ≠ "hwnd" → ensure_hwnd window_info !! key = window_info !! key).
Proof.
  unfold ensure_hwnd, has_handle_key, first_key.
  destruct (window_info !! "handle") as [v1|] eqn:H1.
  { split; [|split].
    - rewrite lookup_insert_eq. split; [by left|by eauto].
    - intros v [= <-]. by rewrite lookup_insert_eq.
    - intros key Hkey. by rewrite lookup_insert_ne. }
  destruct (window_info !! "hwnd") as [v2|] eqn:H2.
  { split; [|split]; [|done..]. rewrite H2. split; [by right; left|by eauto]. }
  destruct (window_info !! "window_handle") as [v3|] eqn:H3.
  { split; [|split]; [|done|].
    - rewrite lookup_insert_eq. split; [by right; right; left|by eauto].
    - intros key Hkey. by rewrite lookup_insert_ne. }
  destruct (window_info !! "window") as [v4|] eqn:H4.
  { split; [|split]; [|done|].
    - rewrite lookup_insert_eq. split; [by right; right; right|by eauto].
    - intros key Hkey. by rewrite lookup_insert_ne. }
  split; [|split]; [|done..]. rewrite H2.
  split; [by intros []|]. intros [[]|[[]|[[]|[]]]]; done.
Qed.
